(** * Session state of the milter client ([mlt::Client], src/client.cpp)

    A shallow embedding of the class [mlt::Client]: its constructor with the
    identifier counter and the [ipAndPort] descriptor, [createContentFile],
    [reset], the private [cleanup] and the destructor.  The C library and
    Boost.Filesystem calls the methods make are recorded, in order, in a
    trace kept in the modelled process state, so that statements such as
    "the handle is closed at most once" or "every buffer is freed exactly
    once" are statements about that trace.  A run ends in [Undefined] at
    a call without defined behaviour, and in [Throw] when an exception
    leaves the method. *)

From Stdlib Require Import ZArith NArith List String Ascii Bool Lia.
From Stdlib Require DecimalString HexadecimalString.
From stdpp Require Import base gmap sets list strings.
Import ListNotations.

Local Open Scope N_scope.
Local Open Scope string_scope.
Local Open Scope list_scope.

(** ** Pointers, files and the call trace *)

(** A raw pointer ([FILE *], [char *], the mapped type of [sessionData]):
    an address, with [nullptr] the address zero. *)
Definition ptr := N.
Definition nullptr : ptr := 0.

(** [p != nullptr] *)
Definition nonnull (p : ptr) : bool := negb (N.eqb p nullptr).

(** What [fs::status] can say about a path that is not simply absent:
    the kind of file it names, or, for [Unreadable], that the query itself
    fails ([stat] ends in an error other than "no such file": no access
    to a parent directory, a name that is too long, ...), in which case
    [fs::exists], [fs::is_regular] and [fs::is_directory] raise
    [filesystem_error]. *)
Inductive fkind := Regular | Directory | Special | Unreadable.

(** One call into the C library, Boost.Filesystem or the diagnostic
    stream, as the methods issue them. *)
Inductive event :=
| EvFopen (path : string) (f : ptr)   (* fopen(path, "w+") returned f *)
| EvFclose (f : ptr)                  (* fclose(f) *)
| EvRemove (path : string)            (* fs::remove(path) *)
| EvFree (p : ptr)                    (* free(p) *)
| EvCerr (msg : string).              (* one line written to std::cerr *)

(** The process as the class sees it: the file system, the static member
    [Client::uniqueId], and the trace of calls made so far (oldest first).
    [unremovable] are the paths on which [fs::remove] raises a
    [filesystem_error]. *)
Record world := World {
  files : gmap string fkind;
  unremovable : gset string;
  uniqueId : N;
  calls : list event
}.

Definition with_files (fs : gmap string fkind) (w : world) : world :=
  World fs (unremovable w) (uniqueId w) (calls w).
Definition with_uniqueId (u : N) (w : world) : world :=
  World (files w) (unremovable w) u (calls w).
Definition with_calls (tr : list event) (w : world) : world :=
  World (files w) (unremovable w) (uniqueId w) tr.

(** The pointers handed to [free], in order. *)
Fixpoint frees (tr : list event) : list ptr :=
  match tr with
  | [] => []
  | EvFree p :: tr' => p :: frees tr'
  | _ :: tr' => frees tr'
  end.

(** The handles handed to [fclose], in order. *)
Fixpoint fcloses (tr : list event) : list ptr :=
  match tr with
  | [] => []
  | EvFclose f :: tr' => f :: fcloses tr'
  | _ :: tr' => fcloses tr'
  end.

(** The lines written to [std::cerr], in order. *)
Fixpoint reports (tr : list event) : list string :=
  match tr with
  | [] => []
  | EvCerr m :: tr' => m :: reports tr'
  | _ :: tr' => reports tr'
  end.

(** ** The session object *)

(** [mlt::mailflags].  Only [TYPE_NONE] is named in client.cpp; the other
    enumerators are declared in client.h and stand here as [TYPE_other]. *)
Inductive mailflags_t := TYPE_NONE | TYPE_other (tag : positive).

(** The data members of [mlt::Client] that client.cpp touches.  [temp] is
    the [fs::path] of the content file; a default-constructed path is the
    empty string.  The container types [sessionData_t] and
    [markedHeaders_t] are declared in client.h: from their use,
    [sessionData] is a map from a key to a pointer and [markedHeaders] a
    sequence of pairs of pointers.  The loops over [sessionData] walk
    [map_to_list], whose order stands for the map's iteration order. *)
Record Client := mkClient {
  fcontent : ptr;
  hostname : string;
  ipAndPort : string;
  id : N;
  mailflags : mailflags_t;
  optionalPreamble : bool;
  genericError : bool;
  fcontentStatus : bool;
  temp : string;
  sessionData : gmap string ptr;
  markedHeaders : list (ptr * ptr)
}.

Definition with_fcontent (f : ptr) (c : Client) : Client :=
  mkClient f (hostname c) (ipAndPort c) (id c) (mailflags c)
    (optionalPreamble c) (genericError c) (fcontentStatus c) (temp c)
    (sessionData c) (markedHeaders c).
Definition with_mailflags (m : mailflags_t) (c : Client) : Client :=
  mkClient (fcontent c) (hostname c) (ipAndPort c) (id c) m
    (optionalPreamble c) (genericError c) (fcontentStatus c) (temp c)
    (sessionData c) (markedHeaders c).
Definition with_optionalPreamble (b : bool) (c : Client) : Client :=
  mkClient (fcontent c) (hostname c) (ipAndPort c) (id c) (mailflags c)
    b (genericError c) (fcontentStatus c) (temp c)
    (sessionData c) (markedHeaders c).
Definition with_genericError (b : bool) (c : Client) : Client :=
  mkClient (fcontent c) (hostname c) (ipAndPort c) (id c) (mailflags c)
    (optionalPreamble c) b (fcontentStatus c) (temp c)
    (sessionData c) (markedHeaders c).
Definition with_fcontentStatus (b : bool) (c : Client) : Client :=
  mkClient (fcontent c) (hostname c) (ipAndPort c) (id c) (mailflags c)
    (optionalPreamble c) (genericError c) b (temp c)
    (sessionData c) (markedHeaders c).
Definition with_temp (t : string) (c : Client) : Client :=
  mkClient (fcontent c) (hostname c) (ipAndPort c) (id c) (mailflags c)
    (optionalPreamble c) (genericError c) (fcontentStatus c) t
    (sessionData c) (markedHeaders c).
Definition with_sessionData (m : gmap string ptr) (c : Client) : Client :=
  mkClient (fcontent c) (hostname c) (ipAndPort c) (id c) (mailflags c)
    (optionalPreamble c) (genericError c) (fcontentStatus c) (temp c)
    m (markedHeaders c).
Definition with_markedHeaders (l : list (ptr * ptr)) (c : Client) : Client :=
  mkClient (fcontent c) (hostname c) (ipAndPort c) (id c) (mailflags c)
    (optionalPreamble c) (genericError c) (fcontentStatus c) (temp c)
    (sessionData c) l.

(** Modelled from the spec: the accessor [getFcontentStatus] is declared in
    client.h, which is not part of the sources at hand; the spec's
    [spoolOpened] is the member [fcontentStatus], which the accessor reads. *)
Definition getFcontentStatus (c : Client) : bool := fcontentStatus c.

(** A method runs on the object and the process it lives in. *)
Record state := State { self : Client; env : world }.

(** What the callbacks add to the two containers between one [reset] and
    the next, or the destructor. *)
Record filling := Filling {
  annotations : gmap string ptr;
  headers : list (ptr * ptr)
}.

(** ** A state monad with exceptions and assertion failure *)

Inductive result (A : Type) :=
| Ret (a : A)               (* normal completion *)
| Throw (what : string)     (* a std::exception in flight, with its what() *)
| Abort (expr : string)     (* assert(expr) failed *)
| Undefined (call : string). (* a call without defined behaviour was made:
                                nothing can be said of what follows *)
Arguments Ret {A} a.
Arguments Throw {A} what.
Arguments Abort {A} expr.
Arguments Undefined {A} call.

Definition M (S A : Type) : Type := S -> result A * S.

Definition ret {S A} (a : A) : M S A := fun s => (Ret a, s).

Definition bind {S A B} (m : M S A) (k : A -> M S B) : M S B :=
  fun s =>
    match m s with
    | (Ret a, s') => k a s'
    | (Throw what, s') => (Throw what, s')
    | (Abort e, s') => (Abort e, s')
    | (Undefined call, s') => (Undefined call, s')
    end.

Definition throw {S A} (what : string) : M S A := fun s => (Throw what, s).

Definition assert_fail {S A} (expr : string) : M S A := fun s => (Abort expr, s).

Definition undefined {S A} (call : string) : M S A := fun s => (Undefined call, s).

(** [try { body } catch (const std::exception &e) { handler(e.what()) }] *)
Definition try_catch {S A} (body : M S A) (handler : string -> M S A) : M S A :=
  fun s =>
    match body s with
    | (Throw what, s') => handler what s'
    | r => r
    end.

Definition gets {S A} (f : S -> A) : M S A := fun s => (Ret (f s), s).
Definition modify {S} (f : S -> S) : M S unit := fun s => (Ret tt, f s).

Declare Scope prog_scope.
Notation "'let*' x ':=' m 'in' k" := (bind m (fun x => k))
  (at level 10, x name, m at level 100, k at level 200) : prog_scope.
Notation "m ;; k" := (bind m (fun _ => k))
  (at level 100, k at level 200, right associativity) : prog_scope.
Local Open Scope prog_scope.

Definition when {S} (b : bool) (m : M S unit) : M S unit :=
  if b then m else ret tt.

(** A [for] loop over the elements of a container, in iteration order. *)
Fixpoint for_each {S A} (l : list A) (body : A -> M S unit) : M S unit :=
  match l with
  | [] => ret tt
  | x :: l' => body x ;; for_each l' body
  end.

(** Run a process-level action from inside a method. *)
Definition in_env {A} (m : M world A) : M state A :=
  fun s => let '(r, w) := m (env s) in (r, State (self s) w).

Definition get {A} (field : Client -> A) : M state A := gets (fun s => field (self s)).
Definition set (upd : Client -> Client) : M state unit :=
  modify (fun s => State (upd (self s)) (env s)).

(** The object and process a method call leaves behind, and what the call
    returned. *)
Definition after {A} (method : M state A) (s : state) : state := (method s).2.
Definition outcome {A} (method : M state A) (s : state) : result A := (method s).1.

(** ** The library calls *)

Definition emit (e : event) : M world unit :=
  modify (fun w => with_calls (calls w ++ [e]) w).

(** [std::cerr << msg << std::endl] *)
Definition cerr (msg : string) : M world unit := emit (EvCerr msg).

(** [free(p)] *)
Definition free (p : ptr) : M world unit := emit (EvFree p).

(** [fclose(f)].  The call is recorded whatever [f] is.  [fclose(NULL)]
    has no defined behaviour (the GNU C library dereferences the pointer
    and the process is killed): the run ends there, in [Undefined]. *)
Definition fclose (f : ptr) : M world unit :=
  emit (EvFclose f) ;;
  if nonnull f then ret tt else undefined "fclose(nullptr)".

(** [fs::status(p)]: what the path names, if anything; the empty path
    names nothing. *)
Definition status_of (p : string) (w : world) : option fkind :=
  if String.eqb p "" then None else files w !! p.

(** The [what()] of the [filesystem_error] a failing status query
    raises. *)
Definition status_error : string := "boost::filesystem::status: Permission denied".

(** [fs::exists(p)] *)
Definition fs_exists (p : string) : M world bool :=
  fun w => match status_of p w with
           | Some Unreadable => (Throw status_error, w)
           | Some _ => (Ret true, w)
           | None => (Ret false, w)
           end.

Definition fs_is_kind (k : fkind) (p : string) : M world bool :=
  fun w => match status_of p w, k with
           | Some Unreadable, _ => (Throw status_error, w)
           | Some Regular, Regular => (Ret true, w)
           | Some Directory, Directory => (Ret true, w)
           | Some Special, Special => (Ret true, w)
           | _, _ => (Ret false, w)
           end.

(** [fs::is_regular(p)] and [fs::is_directory(p)] *)
Definition fs_is_regular : string -> M world bool := fs_is_kind Regular.
Definition fs_is_directory : string -> M world bool := fs_is_kind Directory.

(** [fs::remove(p)]: raises [filesystem_error] on the paths the process
    may not remove, deletes the entry otherwise. *)
Definition fs_remove (p : string) : M world unit :=
  emit (EvRemove p) ;;
  let* u := gets unremovable in
  if bool_decide (p ∈ u)
  then throw "boost::filesystem::remove: Operation not permitted"
  else modify (fun w => with_files (delete p (files w)) w).

(** What the [try] block around [fopen] meets: [fopen] returns a handle
    ([nullptr] when the file cannot be created or opened: it reports
    failure by its return value), or an exception is raised before the
    call completes (the temporary [temp.string()] can raise
    [std::bad_alloc]). *)
Inductive open_reply :=
| Fopen_returns (f : ptr)
| Try_throws (what : string).

(** [fopen(path, "w+")]: a successful call creates (or truncates) the
    regular file. *)
Definition fopen (path : string) (reply : open_reply) : M world ptr :=
  match reply with
  | Try_throws what => throw what
  | Fopen_returns f =>
      emit (EvFopen path f) ;;
      when (nonnull f) (modify (fun w => with_files (<[path := Regular]> (files w)) w)) ;;
      ret f
  end.

(** [fs::unique_path(model)]: every ['%'] of the model is replaced by the
    next random hexadecimal digit; [rnd] is the stream of digits drawn. *)
Fixpoint unique_path_from (model : string) (rnd : nat -> ascii) (i : nat) : string :=
  match model with
  | EmptyString => EmptyString
  | String ch rest =>
      if Ascii.eqb ch "%"%char
      then String (rnd i) (unique_path_from rest rnd (S i))
      else String ch (unique_path_from rest rnd i)
  end.
Definition unique_path (model : string) (rnd : nat -> ascii) : string :=
  unique_path_from model rnd 0.

(** ** Socket addresses *)

(** [struct sockaddr]: the family tag and the octets that follow it
    ([sin_port], [sin_addr], ... in network byte order). *)
Record sockaddr := mkSockaddr { sa_family : Z; sa_data : list Z }.

(** Constants of the system headers (their Linux values). *)
Definition AF_INET : Z := 2.
Definition AF_INET6 : Z := 10.
Definition EAI_FAMILY : Z := -6.
Definition NI_MAXHOST : Z := 1025.
Definition NI_MAXSERV : Z := 32.
Definition NI_NUMERICHOST : Z := 1.
Definition NI_NUMERICSERV : Z := 2.
Definition sizeof_sockaddr_in : Z := 16.
Definition sizeof_sockaddr_in6 : Z := 28.

(** ** The identifier counter *)

(** [counter_t] is declared in client.h; the initialiser [0UL] makes it an
    [unsigned long], 64 bits wide on the platforms the milter runs on. *)
Definition counter_bits : N := 64.
Definition counter_wrap (n : N) : N := n mod 2 ^ counter_bits.

(** [++uniqueId] *)
Definition increment (u : N) : N := counter_wrap (u + 1).

(** The initialiser of the member [id], statement by statement, as the
    instructions of one thread; several constructors running at once
    interleave their instructions. *)
Module IdThreads.

Inductive instr :=
| Lock        (* uniqueIdLock.lock() *)
| Incr        (* ++uniqueId *)
| Unlock      (* uniqueIdLock.unlock() *)
| ReturnId.   (* return uniqueId *)

(** The body of the lambda in the constructor's initialiser list. *)
Definition id_initializer : list instr := [Lock; Incr; Unlock; ReturnId].

(** What the threads share: the static counter and the mutex. *)
Record shared := Shared { counter : N; locked : bool }.

(** A thread: the instructions it has still to run and, once it has
    returned, the value it initialises [id] with. *)
Record thread := Thread { todo : list instr; returned : option N }.

Definition start : thread := Thread id_initializer None.

(** One instruction of one thread; [None] when the thread cannot move
    (it waits for the mutex, or it has finished). *)
Definition exec (sh : shared) (t : thread) : option (shared * thread) :=
  match todo t with
  | [] => None
  | Lock :: rest =>
      if locked sh then None
      else Some (Shared (counter sh) true, Thread rest (returned t))
  | Incr :: rest =>
      Some (Shared (increment (counter sh)) (locked sh), Thread rest (returned t))
  | Unlock :: rest =>
      Some (Shared (counter sh) false, Thread rest (returned t))
  | ReturnId :: rest =>
      Some (sh, Thread rest (Some (counter sh)))
  end.

Record machine := Machine { mem : shared; threads : list thread }.

(** [n] constructors start together; [Client::uniqueId] is [u]. *)
Definition boot (u : N) (n : nat) : machine :=
  Machine (Shared u false) (replicate n start).

(** The scheduler lets thread [i] run one instruction. *)
Definition step (i : nat) (m : machine) : option machine :=
  match threads m !! i with
  | None => None
  | Some t =>
      match exec (mem m) t with
      | None => None
      | Some (sh, t') => Some (Machine sh (<[i := t']> (threads m)))
      end
  end.

(** A schedule: which thread moves at each step. *)
Fixpoint run (schedule : list nat) (m : machine) : option machine :=
  match schedule with
  | [] => Some m
  | i :: rest =>
      match step i m with
      | None => None
      | Some m' => run rest m'
      end
  end.

(** The identities the constructors ended up with. *)
Definition identities (m : machine) : list (option N) :=
  map returned (threads m).

(** Thread after thread, each running its four instructions in one go. *)
Fixpoint one_after_another (first count : nat) : list nat :=
  match count with
  | O => []
  | S k => [first; first; first; first] ++ one_after_another (S first) k
  end.

End IdThreads.

(** What the constructors running at once keep true. *)

(** A constructor holds the mutex from its [lock] to its [unlock]. *)
Definition holds_lock (t : IdThreads.thread) : bool :=
  match IdThreads.todo t with
  | IdThreads.Incr :: _ | IdThreads.Unlock :: _ => true
  | _ => false
  end.

(** A constructor that has made its increment. *)
Definition has_incremented (t : IdThreads.thread) : bool :=
  match IdThreads.todo t with
  | IdThreads.Lock :: _ | IdThreads.Incr :: _ => false
  | _ => true
  end.

(** How many of the threads satisfy [p]. *)
Fixpoint count_threads (p : IdThreads.thread -> bool) (l : list IdThreads.thread) : nat :=
  match l with
  | [] => 0
  | t :: l' => (if p t then 1 else 0) + count_threads p l'
  end.

(** The counter after [k] increments from [u]. *)
Definition incremented (k : nat) (u : N) : N := Nat.iter k increment u.

(** A thread is somewhere along the initialiser. *)
Definition on_track (t : IdThreads.thread) : Prop :=
  In (IdThreads.todo t)
    [IdThreads.id_initializer;
     [IdThreads.Incr; IdThreads.Unlock; IdThreads.ReturnId];
     [IdThreads.Unlock; IdThreads.ReturnId];
     [IdThreads.ReturnId];
     []].

(** A thread has a value exactly when it has finished, and the value is
    the counter after some of the first [upto] increments. *)
Definition identity_in_range (u : N) (upto : nat) (t : IdThreads.thread) : Prop :=
  match IdThreads.returned t with
  | Some v =>
      IdThreads.todo t = []
      /\ exists k, (1 <= k <= upto)%nat /\ v = incremented k u
  | None => IdThreads.todo t <> []
  end.

(** The invariant of the machine started with the counter at [u]. *)
Record consistent (u : N) (m : IdThreads.machine) : Prop := Consistent {
  threads_on_track : Forall on_track (IdThreads.threads m);
  one_holder :
    count_threads holds_lock (IdThreads.threads m)
    = (if IdThreads.locked (IdThreads.mem m) then 1 else 0)%nat;
  counter_counts :
    IdThreads.counter (IdThreads.mem m)
    = incremented (count_threads has_incremented (IdThreads.threads m)) u;
  identities_in_range :
    Forall (identity_in_range u
              (count_threads has_incremented (IdThreads.threads m)))
      (IdThreads.threads m)
}.

(** ** A numeric [getnameinfo]

    The address-to-text conversion the C library performs under
    [NI_NUMERICHOST | NI_NUMERICSERV], for the two internet families:
    dotted decimal for IPv4, the [inet_ntop] text form for IPv6 (scope
    identifier zero), the port in decimal.  The methods below take
    [getnameinfo] as a parameter; this instance is what the examples run
    them with. *)
Module Numeric.

Definition decimal (n : N) : string :=
  DecimalString.NilZero.string_of_uint (N.to_uint n).

Definition hexadecimal (n : N) : string :=
  HexadecimalString.NilZero.string_of_uint (N.to_hex_uint n).

Definition octet (bytes : list Z) (i : nat) : N := Z.to_N (nth i bytes 0%Z).

(** Two octets in network byte order. *)
Definition word16 (bytes : list Z) (i : nat) : N :=
  octet bytes i * 256 + octet bytes (S i).

Definition dotted_quad (bytes : list Z) (i : nat) : string :=
  decimal (octet bytes i) +:+ "." +:+ decimal (octet bytes (i + 1)) +:+ "."
  +:+ decimal (octet bytes (i + 2)) +:+ "." +:+ decimal (octet bytes (i + 3)).

(** The longest run of zero words, the first one among equals, as
    (base, length); [inet_ntop] abbreviates it when it is two words or
    more. *)
Definition better (cur best : option (nat * nat)) : option (nat * nat) :=
  match cur, best with
  | None, _ => best
  | Some c, None => Some c
  | Some c, Some b => if (b.2 <? c.2)%nat then Some c else Some b
  end.

Fixpoint scan_runs (ws : list N) (i : nat) (cur best : option (nat * nat))
  : option (nat * nat) :=
  match ws with
  | [] => better cur best
  | w :: ws' =>
      if N.eqb w 0
      then scan_runs ws' (S i)
             (match cur with
              | None => Some (i, 1%nat)
              | Some c => Some (c.1, S c.2)
              end) best
      else scan_runs ws' (S i) None (better cur best)
  end.

Definition best_run (ws : list N) : option (nat * nat) :=
  match scan_runs ws 0 None None with
  | Some b => if (b.2 <? 2)%nat then None else Some b
  | None => None
  end.

Definition in_run (best : option (nat * nat)) (i : nat) : bool :=
  match best with
  | Some b => (b.1 <=? i)%nat && (i <? b.1 + b.2)%nat
  | None => false
  end.

Fixpoint print_words (ws : list N) (i : nat) (best : option (nat * nat)) : string :=
  match ws with
  | [] => ""
  | w :: ws' =>
      if in_run best i
      then (if bool_decide (Some i = fst <$> best) then ":" else "")
           +:+ print_words ws' (S i) best
      else (if (0 <? i)%nat then ":" else "") +:+ hexadecimal w
           +:+ print_words ws' (S i) best
  end.

Definition inet_ntop6 (bytes : list Z) (i : nat) : string :=
  let ws := map (fun k => word16 bytes (i + 2 * k)) (seq 0 8) in
  let best := best_run ws in
  let mapped :=
    match best with
    | Some (O, 6%nat) => true
    | Some (O, 7%nat) => negb (N.eqb (nth 7 ws 0) 1)
    | Some (O, 5%nat) => N.eqb (nth 5 ws 0) 65535
    | _ => false
    end in
  if mapped
  then print_words (firstn 6 ws) 0 best +:+ ":" +:+ dotted_quad bytes (i + 12)
  else print_words ws 0 best
       +:+ (match best with
            | Some b => if (b.1 + b.2 =? 8)%nat then ":" else ""
            | None => ""
            end).

(** [getnameinfo(sa, salen, host, hostlen, serv, servlen, flags)]:
    the result code (zero on success) and the host and service texts. *)
Definition getnameinfo (sa : sockaddr) (salen hostlen servlen flags : Z)
  : Z * string * string :=
  if Z.eqb (sa_family sa) AF_INET
  then if (salen <? sizeof_sockaddr_in)%Z then (EAI_FAMILY, "", "")
       else (0%Z, dotted_quad (sa_data sa) 2, decimal (word16 (sa_data sa) 0))
  else if Z.eqb (sa_family sa) AF_INET6
  then if (salen <? sizeof_sockaddr_in6)%Z then (EAI_FAMILY, "", "")
       else (0%Z, inet_ntop6 (sa_data sa) 6, decimal (word16 (sa_data sa) 0))
  else (EAI_FAMILY, "", "").

(** [gai_strerror]: the messages of the GNU C library. *)
Definition gai_strerror (code : Z) : string :=
  if Z.eqb code EAI_FAMILY then "ai_family not supported"
  else if Z.eqb code 0 then "Success"
  else "Unknown error".

End Numeric.

(** ** Sample peers and sessions *)

(** 203.0.113.5, port 25 *)
Definition peer_v4 : sockaddr :=
  mkSockaddr AF_INET [0; 25; 203; 0; 113; 5; 0; 0; 0; 0; 0; 0; 0; 0]%Z.

(** 2001:db8::1, port 587 *)
Definition peer_v6 : sockaddr :=
  mkSockaddr AF_INET6
    [2; 75; 0; 0; 0; 0; 32; 1; 13; 184; 0; 0; 0; 0; 0; 0; 0; 0; 0; 0; 0; 1;
     0; 0; 0; 0]%Z.

(** A peer on a Unix-domain socket ([AF_UNIX] is 1). *)
Definition peer_unix : sockaddr := mkSockaddr 1 [47; 116; 109; 112; 0]%Z.

(** A process that has made no call yet, with a spool directory
    [/var/spool/sigh] and a regular file [/etc/passwd]. *)
Definition fresh_process : world :=
  World (<["/var/spool/sigh" := Directory]> (<["/etc/passwd" := Regular]> ∅)) ∅ 0 [].

(** The digits [fs::unique_path] draws in the samples: 0, 1, 2, ... *)
Definition digits (i : nat) : ascii :=
  nth (i mod 16) (list_ascii_of_string "0123456789abcdef") "0"%char.

(** A session with two annotations (one of them null) and two marked
    headers (one with a null value). *)
Definition populated (c : Client) : Client :=
  with_markedHeaders [(101, 102); (103, nullptr)]
    (with_sessionData (<["envfrom" := 201]> (<["rcpt" := nullptr]> (<["queueid" := 202]> ∅)))
       (with_genericError true (with_mailflags (TYPE_other 1) c))).

(** The session built for [peer_v4] in [fresh_process]: the first one of
    the process. *)
Definition session0 : state :=
  State
    (mkClient nullptr "mx.example.org" "203.0.113.5:25" 1 TYPE_NONE true false
       false "" ∅ [])
    (with_uniqueId 1 fresh_process).

(** [session0] once its content file is open, on handle 7. *)
Definition spool0 : string := "/var/spool/sigh/0123-4567-89ab-cdef.eml".
Definition spooled : state :=
  State
    (mkClient 7 "mx.example.org" "203.0.113.5:25" 1 TYPE_NONE true false
       true spool0 ∅ [])
    (World (<[spool0 := Regular]> (files fresh_process)) ∅ 1 [EvFopen spool0 7]).

(** [spooled] in a process that may not remove the content file. *)
Definition stuck : state :=
  State (self spooled)
    (World (files (env spooled)) {[spool0]} 1 (calls (env spooled))).

(** The session built next, for [peer_v6], in the process of [session0]. *)
Definition session1 : state :=
  State
    (mkClient nullptr "mail.example.net" "[2001:db8::1]:587" 2 TYPE_NONE true
       false false "" ∅ [])
    (with_uniqueId 2 fresh_process).

(** Another draw of random digits: 1, 2, 3, ... *)
Definition digits' (i : nat) : ascii := digits (S i).

(** Three fillings: two annotations (one null) and two marked headers
    (one with a null value); nothing at all; one annotation and one
    marked header. *)
Definition first_mail : filling :=
  Filling (<["envfrom" := 201]> (<["rcpt" := nullptr]> ∅))
    [(101, 102); (103, nullptr)].
Definition nothing_placed : filling := Filling ∅ [].
Definition last_mail : filling :=
  Filling (<["queueid" := 202]> ∅) [(104, 105)].

(** ** The methods of [mlt::Client] *)

Section Build.

(** Whether the build defines [_KEEP_TEMPFILES]. *)
Variable KEEP_TEMPFILES : bool.

(** [getnameinfo(sa, salen, host, hostlen, serv, servlen, flags)] of the
    C library: its return value and the two strings it leaves in the
    buffers. *)
Variable getnameinfo : sockaddr -> Z -> Z -> Z -> Z -> Z * string * string.

(** [gai_strerror(code)] of the C library. *)
Variable gai_strerror : Z -> string.

(** [Client::prepareIPandPort].  [hostaddr] is a pointer: [None] is the
    null pointer. *)
Definition prepareIPandPort (hostaddr : option sockaddr) : M world string :=
  match hostaddr with
  | None => assert_fail "hostaddr != nullptr"
  | Some sa =>
      match (if Z.eqb (sa_family sa) AF_INET then Some sizeof_sockaddr_in
             else if Z.eqb (sa_family sa) AF_INET6 then Some sizeof_sockaddr_in6
             else None) with
      | None =>
          cerr ("Error: " +:+ gai_strerror EAI_FAMILY) ;;
          ret "unknown"
      | Some hostaddrlen =>
          let '(result, clienthost, clientport) :=
            getnameinfo sa hostaddrlen NI_MAXHOST NI_MAXSERV
              (Z.lor NI_NUMERICHOST NI_NUMERICSERV) in
          if negb (Z.eqb result 0)
          then cerr ("Error: " +:+ gai_strerror result) ;;
               ret "unknown"
          else if Z.eqb (sa_family sa) AF_INET
          then ret (clienthost +:+ ":" +:+ clientport)
          else if Z.eqb (sa_family sa) AF_INET6
          then ret ("[" +:+ clienthost +:+ "]:" +:+ clientport)
          else ret "unknown"
      end
  end.

(** The initialiser of [id], run with no other constructor interfering:
    the mutex is free, so [lock] and [unlock] leave no mark. *)
Definition id_initializer : M world N :=
  modify (fun w => with_uniqueId (increment (uniqueId w)) w) ;;
  gets uniqueId.

(** [Client::Client(hostname, hostaddr)].  The members are initialised in
    the order of the initialiser list; the order of their declarations in
    client.h, which C++ follows, is not at hand, and the two initialisers
    with an effect (a line on [std::cerr], the counter) do not depend on
    each other. *)
Definition Client_ctor (hostname_ : string) (hostaddr : option sockaddr)
  : M world Client :=
  let* ipAndPort_ := prepareIPandPort hostaddr in
  let* id_ := id_initializer in
  ret (mkClient nullptr hostname_ ipAndPort_ id_ TYPE_NONE true false false
         "" ∅ []).

(** [Client::cleanup] *)
Definition cleanup : M state unit :=
  let* status := get getFcontentStatus in
  let* f := get fcontent in
  when (status || nonnull f)
    (in_env (fclose f) ;;
     set (with_fcontent nullptr)) ;;
  if KEEP_TEMPFILES then ret tt
  else
    try_catch
      (let* t := get temp in
       let* e := in_env (fs_exists t) in
       let* r := if e then in_env (fs_is_regular t) else ret false in
       when r (in_env (fs_remove t)))
      (fun what => in_env (cerr ("Error: " +:+ what))).

(** [Client::createContentFile(tmpdir)].  [rnd] are the random digits
    [fs::unique_path] draws and [reply] is what the [try] block around
    [fopen] meets.  The two status queries on [tmpdir] stand outside any
    [try]: what they raise leaves the method. *)
Definition createContentFile (tmpdir : string) (rnd : nat -> ascii)
    (reply : open_reply) : M state bool :=
  let* cleaned :=
    try_catch (cleanup ;; ret true)
      (fun what => in_env (cerr ("Error: " +:+ what)) ;; ret false) in
  if negb cleaned then ret false
  else
    let* e := in_env (fs_exists tmpdir) in
    let* missing :=
      if negb e
      then (let* d := in_env (fs_is_directory tmpdir) in ret (negb d))
      else ret false in
    if missing
    then in_env (cerr "Error: Can not access temporary directory") ;;
         ret false
    else
      set (with_temp (unique_path (tmpdir +:+ "/%%%%-%%%%-%%%%-%%%%.eml") rnd)) ;;
      try_catch
        (let* t := get temp in
         let* f := in_env (fopen t reply) in
         set (with_fcontent f) ;;
         set (with_fcontentStatus true))
        (fun what =>
           set (with_fcontent nullptr) ;;
           in_env (cerr ("Error: " +:+ what))) ;;
      let* f := get fcontent in
      ret (nonnull f).

(** The two release loops of [reset]: each pointer that is not null is
    freed and the entry's pointer is then set to null. *)
Definition reset_sessionData_entry (kv : string * ptr) : M state unit :=
  when (nonnull kv.2)
    (in_env (free kv.2) ;;
     set (fun c => with_sessionData (<[kv.1 := nullptr]> (sessionData c)) c)).

Definition reset_markedHeaders_entry (ih : nat * (ptr * ptr)) : M state unit :=
  when (nonnull ih.2.1)
    (in_env (free ih.2.1) ;;
     set (fun c => with_markedHeaders
                     (alter (fun h => (nullptr, h.2)) ih.1 (markedHeaders c)) c)) ;;
  when (nonnull ih.2.2)
    (in_env (free ih.2.2) ;;
     set (fun c => with_markedHeaders
                     (alter (fun h => (h.1, nullptr)) ih.1 (markedHeaders c)) c)).

(** [Client::reset] *)
Definition reset : M state unit :=
  let* sd := get sessionData in
  for_each (map_to_list sd) reset_sessionData_entry ;;
  set (with_sessionData ∅) ;;
  let* mh := get markedHeaders in
  for_each (zip (seq 0 (length mh)) mh) reset_markedHeaders_entry ;;
  set (with_markedHeaders []) ;;
  set (with_mailflags TYPE_NONE) ;;
  set (with_optionalPreamble true) ;;
  set (with_genericError false) ;;
  set (with_fcontentStatus false).

(** The two release loops of the destructor. *)
Definition dtor_sessionData_entry (kv : string * ptr) : M state unit :=
  when (nonnull kv.2) (in_env (free kv.2)).

Definition dtor_markedHeaders_entry (h : ptr * ptr) : M state unit :=
  when (nonnull h.1) (in_env (free h.1)) ;;
  when (nonnull h.2) (in_env (free h.2)).

(** [Client::~Client] *)
Definition Client_dtor : M state unit :=
  try_catch
    (cleanup ;;
     let* sd := get sessionData in
     for_each (map_to_list sd) dtor_sessionData_entry ;;
     let* mh := get markedHeaders in
     for_each mh dtor_markedHeaders_entry)
    (fun what => in_env (cerr ("Error: " +:+ what))).

(** Destroying the object [c]: the destructor runs and the object is
    gone; the process remains. *)
Definition destroy (c : Client) : M world unit :=
  fun w => let '(r, s) := Client_dtor (State c w) in (r, env s).

(** *** What the object owns, and what the caller does between calls *)

(** The buffers the object's containers hold: the pointers of the
    entries that are not null, in the order the release loops meet
    them. *)
Definition sessionData_ptrs (m : gmap string ptr) : list ptr :=
  List.filter nonnull (map snd (map_to_list m)).
Definition markedHeaders_ptrs (l : list (ptr * ptr)) : list ptr :=
  List.filter nonnull (flat_map (fun h => [h.1; h.2]) l).
Definition owned (c : Client) : list ptr :=
  sessionData_ptrs (sessionData c) ++ markedHeaders_ptrs (markedHeaders c).

(** The callbacks add entries to the two containers: new keys go into
    [sessionData] next to the entries it has, new pairs go to the end of
    [markedHeaders]. *)
Definition place (f : filling) : M state unit :=
  set (fun c => with_markedHeaders (markedHeaders c ++ headers f)
                  (with_sessionData (annotations f ∪ sessionData c) c)).

(** The handle and the flag are not in the state "flag set, handle null",
    the one state in which [cleanup] calls [fclose(nullptr)]. *)
Definition spool_sound (c : Client) : Prop :=
  fcontentStatus c = true -> fcontent c <> nullptr.

Definition placed (f : filling) : list ptr :=
  sessionData_ptrs (annotations f) ++ markedHeaders_ptrs (headers f).

(** A life of the object: at each reuse the callbacks add entries and
    [reset] is called; entries are added a last time and the object is
    destroyed. *)
Fixpoint reuses (fs : list filling) : M state unit :=
  match fs with
  | [] => ret tt
  | f :: fs' => place f ;; reset ;; reuses fs'
  end.

Definition lifetime (fs : list filling) (last : filling) : M state unit :=
  reuses fs ;; place last ;; Client_dtor.

(** The process after [fopen(t, "w+")] has returned [f]. *)
Definition opened (t : string) (f : ptr) (w : world) : world :=
  let w1 := with_calls (calls w ++ [EvFopen t f]) w in
  if nonnull f then with_files (<[t := Regular]> (files w1)) w1 else w1.

(** The object [reset] leaves behind, field by field. *)
Definition after_reset (c : Client) : Client :=
  mkClient (fcontent c) (hostname c) (ipAndPort c) (id c) TYPE_NONE true
    false false (temp c) ∅ [].

(** The object the constructor builds for a given host name, descriptor
    and identifier. *)
Definition constructed (hostname_ ipAndPort_ : string) (id_ : N) : Client :=
  mkClient nullptr hostname_ ipAndPort_ id_ TYPE_NONE true false false "" ∅ [].

(** The descriptor in the words of the specification: [host:port] for
    IPv4, [[host]:port] for IPv6, ["unknown"] for another family or when
    the numeric resolution fails. *)
Definition resolved (sa : sockaddr) (salen : Z) : option (string * string) :=
  let '(code, host, port) :=
    getnameinfo sa salen NI_MAXHOST NI_MAXSERV
      (Z.lor NI_NUMERICHOST NI_NUMERICSERV) in
  if Z.eqb code 0 then Some (host, port) else None.

Definition descriptor (sa : sockaddr) : string :=
  if decide (sa_family sa = AF_INET) then
    match resolved sa sizeof_sockaddr_in with
    | Some (host, port) => host +:+ ":" +:+ port
    | None => "unknown"
    end
  else if decide (sa_family sa = AF_INET6) then
    match resolved sa sizeof_sockaddr_in6 with
    | Some (host, port) => "[" +:+ host +:+ "]:" +:+ port
    | None => "unknown"
    end
  else "unknown".

(** *** Paths and texts *)

(** The text has no ['%'], the placeholder of [fs::unique_path]. *)
Fixpoint free_of_percent (s : string) : bool :=
  match s with
  | EmptyString => true
  | String ch rest => negb (Ascii.eqb ch "%"%char) && free_of_percent rest
  end.

(** The text has no [':']. *)
Fixpoint colon_free (s : string) : bool :=
  match s with
  | EmptyString => true
  | String ch rest => negb (Ascii.eqb ch ":"%char) && colon_free rest
  end.

(** Four digits of the stream, from the [i]-th on. *)
Definition digits4 (rnd : nat -> ascii) (i : nat) : string :=
  String (rnd i) (String (rnd (S i)) (String (rnd (S (S i)))
    (String (rnd (S (S (S i)))) EmptyString))).

(** The name [fs::unique_path] makes of [%%%%-%%%%-%%%%-%%%%.eml]. *)
Definition eml_name (rnd : nat -> ascii) : string :=
  digits4 rnd 0 +:+ "-" +:+ digits4 rnd 4 +:+ "-" +:+ digits4 rnd 8 +:+ "-"
  +:+ digits4 rnd 12 +:+ ".eml".

(** ** Properties *)

(** *** The trace *)

Lemma frees_app (a b : list event) : frees (a ++ b) = frees a ++ frees b.
Proof.
  induction a as [|e a IH]; [reflexivity|].
  destruct e; simpl; rewrite IH; reflexivity.
Qed.

Lemma fcloses_app (a b : list event) : fcloses (a ++ b) = fcloses a ++ fcloses b.
Proof.
  induction a as [|e a IH]; [reflexivity|].
  destruct e; simpl; rewrite IH; reflexivity.
Qed.

Lemma reports_app (a b : list event) : reports (a ++ b) = reports a ++ reports b.
Proof.
  induction a as [|e a IH]; [reflexivity|].
  destruct e; simpl; rewrite IH; reflexivity.
Qed.

Lemma frees_map_EvFree (ps : list ptr) : frees (map EvFree ps) = ps.
Proof. induction ps as [|p ps IH]; simpl; [|rewrite IH]; reflexivity. Qed.

Lemma fcloses_map_EvFree (ps : list ptr) : fcloses (map EvFree ps) = [].
Proof. induction ps as [|p ps IH]; simpl; auto. Qed.

Lemma nonnull_spec (p : ptr) : nonnull p = true <-> p <> nullptr.
Proof.
  unfold nonnull, nullptr. destruct (N.eqb_spec p 0); simpl; split; intros; congruence.
Qed.

Lemma nonnull_false (p : ptr) : nonnull p = false <-> p = nullptr.
Proof.
  unfold nonnull, nullptr. destruct (N.eqb_spec p 0); simpl; split; intros; congruence.
Qed.

Lemma owned_nonnull (c : Client) : ~ In nullptr (owned c).
Proof.
  unfold owned, sessionData_ptrs, markedHeaders_ptrs.
  rewrite in_app_iff, !filter_In. intros [[_ H]|[_ H]]; discriminate H.
Qed.

(** *** Running a method symbolically *)

(** Unfolds the monad and the library calls, down to the records. *)
Ltac run :=
  cbv beta iota zeta delta
    [bind ret get gets set modify when in_env try_catch throw assert_fail
     undefined
     fclose cerr free emit fs_exists fs_is_regular fs_is_directory
     fs_is_kind status_of fs_remove fopen getFcontentStatus
     with_calls with_files with_uniqueId with_fcontent with_mailflags
     with_optionalPreamble with_genericError with_fcontentStatus with_temp
     with_sessionData with_markedHeaders
     self env calls files unremovable uniqueId
     fcontent hostname ipAndPort id mailflags optionalPreamble genericError
     fcontentStatus temp sessionData markedHeaders fst snd];
  cbn [andb orb negb].

(** Closes an existential on the final process state and the calls made,
    once the program has been run. *)
Ltac made tr :=
  eexists _, tr; split; [reflexivity|];
  run; rewrite <- ?app_assoc, ?app_nil_r; repeat split.

(** *** [cleanup] *)

(** [cleanup] called in the state "flag set, handle null" calls
    [fclose(nullptr)]: that is its one call, and its last. *)
Lemma cleanup_undefined (s : state) :
  fcontentStatus (self s) = true ->
  fcontent (self s) = nullptr ->
  cleanup s =
    (Undefined "fclose(nullptr)",
     State (self s) (with_calls (calls (env s) ++ [EvFclose nullptr]) (env s))).
Proof.
  destruct s as [c w]. destruct c as [f h ip i mf op ge st t sd mh].
  destruct w as [fs un u tr0]. run. intros -> ->.
  unfold cleanup. run. change (nonnull nullptr) with false. run. reflexivity.
Qed.

(** In any other state [cleanup] returns; it leaves the handle null and
    touches no other member; it frees nothing, and calls [fclose] exactly
    when the handle is not null, on that handle; the only path it can take
    away is the regular file at [temp], which it does take away when the
    build does not keep it and it can be removed; a build that keeps it
    leaves the file system alone. *)
Lemma cleanup_runs (s : state) :
  spool_sound (self s) ->
  exists w' tr,
    cleanup s = (Ret tt, State (with_fcontent nullptr (self s)) w')
    /\ calls w' = calls (env s) ++ tr
    /\ uniqueId w' = uniqueId (env s)
    /\ frees tr = []
    /\ fcloses tr =
         (if nonnull (fcontent (self s)) then [fcontent (self s)] else [])
    /\ (forall p, status_of p w' = status_of p (env s)
                  \/ (status_of p (env s) = Some Regular
                      /\ status_of p w' = None))
    /\ (KEEP_TEMPFILES = true -> files w' = files (env s))
    /\ (KEEP_TEMPFILES = false ->
        status_of (temp (self s)) (env s) = Some Regular ->
        temp (self s) ∉ unremovable (env s) ->
        In (EvRemove (temp (self s))) tr
        /\ status_of (temp (self s)) w' = None).
Proof.
  destruct s as [c w]. destruct c as [f h ip i mf op ge st t sd mh].
  destruct w as [fs un u tr0]. unfold spool_sound. run. intros Hsound.
  assert (Hcond : st || nonnull f = nonnull f).
  { destruct (nonnull f) eqn:Hf; [apply orb_true_r|].
    destruct st; [|reflexivity].
    apply nonnull_false in Hf. elim (Hsound eq_refl Hf). }
  assert (Hgone : forall p,
             String.eqb t "" = false -> fs !! t = Some Regular ->
             (if String.eqb p "" then None else delete t fs !! p)
             = (if String.eqb p "" then None else fs !! p)
             \/ ((if String.eqb p "" then None else fs !! p) = Some Regular
                 /\ (if String.eqb p "" then None else delete t fs !! p) = None)).
  { intros p Ht Hreg. destruct (String.eqb p "") eqn:Hp; [left; reflexivity|].
    destruct (decide (t = p)) as [<-|Hne].
    - right. rewrite lookup_delete_eq. auto.
    - left. rewrite lookup_delete_ne by assumption. reflexivity. }
  unfold cleanup. run. rewrite Hcond.
  destruct (nonnull f) eqn:Hf; run; rewrite ?Hf; run;
    [|apply nonnull_false in Hf; subst f];
    (destruct KEEP_TEMPFILES; run;
     [first [made [EvFclose f] | made (@nil event)];
      try solve [auto | discriminate]
     |]);
    (destruct (String.eqb t "") eqn:Ht; run;
     [first [made [EvFclose f] | made (@nil event)];
      try solve [auto | discriminate]
     |]);
    (destruct (fs !! t) as [[| | |]|] eqn:Hfs;
     repeat (progress (run; rewrite ?Ht, ?Hfs));
     [destruct (bool_decide (t ∈ un)) eqn:Hun; run;
      [first [made [EvFclose f; EvRemove t;
                    EvCerr "Error: boost::filesystem::remove: Operation not permitted"]
             | made [EvRemove t;
                     EvCerr "Error: boost::filesystem::remove: Operation not permitted"]];
       try solve [auto | discriminate
                 | apply bool_decide_eq_true_1 in Hun; contradiction]
      |first [made [EvFclose f; EvRemove t] | made [EvRemove t]];
       try solve [auto | discriminate | cbn; auto | apply lookup_delete_eq]]
     |first [made [EvFclose f] | made (@nil event)];
      try solve [auto | discriminate]
     |first [made [EvFclose f] | made (@nil event)];
      try solve [auto | discriminate]
     |first [made [EvFclose f; EvCerr ("Error: " +:+ status_error)]
            | made [EvCerr ("Error: " +:+ status_error)]];
      try solve [auto | discriminate]
     |first [made [EvFclose f] | made (@nil event)];
      try solve [auto | discriminate]]).
Qed.

(** The two states apart. *)
Lemma sound_or_not (c : Client) :
  spool_sound c \/ (fcontentStatus c = true /\ fcontent c = nullptr).
Proof.
  unfold spool_sound. destruct (fcontentStatus c); [|left; discriminate].
  destruct (N.eq_dec (fcontent c) nullptr) as [Hf|Hf]; [right|left]; auto.
Qed.

(** With the flag set, [cleanup] calls [fclose] on the handle whatever it
    is: on the null pointer when the handle is null. *)
Lemma cleanup_with_flag_set (s : state) :
  fcontentStatus (self s) = true ->
  exists tr,
    calls (env (after cleanup s)) = calls (env s) ++ tr
    /\ fcloses tr = [fcontent (self s)].
Proof.
  intros Hst. unfold after.
  destruct (sound_or_not (self s)) as [Hsound|[_ Hnull]].
  - destruct (cleanup_runs s Hsound) as (w' & tr & -> & Hcalls & _ & _ & Hcl & _).
    exists tr. split; [exact Hcalls|].
    rewrite Hcl. pose proof (Hsound Hst) as Hf. apply nonnull_spec in Hf.
    rewrite Hf. reflexivity.
  - rewrite (cleanup_undefined s Hst Hnull). exists [EvFclose nullptr].
    destruct s as [c w]. destruct w. cbn in *. rewrite Hnull. split; reflexivity.
Qed.

(** [cleanup] leaves the flag as it finds it. *)
Lemma cleanup_keeps_flag (s : state) :
  fcontentStatus (self (after cleanup s)) = fcontentStatus (self s).
Proof.
  unfold after. destruct (sound_or_not (self s)) as [Hsound|[Hst Hnull]].
  - destruct (cleanup_runs s Hsound) as (w' & tr & -> & _).
    destruct s as [c w]. destruct c. reflexivity.
  - rewrite (cleanup_undefined s Hst Hnull). reflexivity.
Qed.

(** *** The release loops *)

Lemma reset_sessionData_loop (l : list (string * ptr)) (s : state) :
  exists m',
    for_each l reset_sessionData_entry s =
      (Ret tt,
       State (with_sessionData m' (self s))
         (with_calls
            (calls (env s) ++ map EvFree (List.filter nonnull (map snd l)))
            (env s))).
Proof.
  revert s. induction l as [|[k v] l IH]; intros [c w].
  - exists (sessionData c). destruct c, w. run. rewrite app_nil_r. reflexivity.
  - cbn [for_each map List.filter snd]. unfold reset_sessionData_entry at 1.
    run. destruct (nonnull v); run.
    + destruct (IH (State (with_sessionData (<[k := nullptr]> (sessionData c)) c)
                      (with_calls (calls w ++ [EvFree v]) w))) as [m' Hm'].
      revert Hm'. run. intros ->. exists m'.
      rewrite <- app_assoc. reflexivity.
    + destruct (IH (State c w)) as [m' Hm']. rewrite Hm'. exists m'. reflexivity.
Qed.

Lemma reset_markedHeaders_loop (l : list (nat * (ptr * ptr))) (s : state) :
  exists l',
    for_each l reset_markedHeaders_entry s =
      (Ret tt,
       State (with_markedHeaders l' (self s))
         (with_calls
            (calls (env s)
             ++ map EvFree
                  (List.filter nonnull (flat_map (fun ih => [ih.2.1; ih.2.2]) l)))
            (env s))).
Proof.
  revert s. induction l as [|[i [a b]] l IH]; intros [c w].
  - exists (markedHeaders c). destruct c, w. run. rewrite app_nil_r. reflexivity.
  - cbn [for_each flat_map app List.filter snd fst].
    unfold reset_markedHeaders_entry at 1. run.
    destruct (nonnull a), (nonnull b); run;
      match goal with
      | |- context [for_each l _ ?s0] =>
          destruct (IH s0) as [l' Hl']; revert Hl'; run; intros ->; exists l'
      end;
      cbn [map app]; rewrite <- ?app_assoc; reflexivity.
Qed.

Lemma indexed_pointers (l : list (ptr * ptr)) (from : nat) :
  flat_map (fun ih : nat * (ptr * ptr) => [ih.2.1; ih.2.2])
    (zip (seq from (length l)) l)
  = flat_map (fun h => [h.1; h.2]) l.
Proof.
  revert from. induction l as [|h l IH]; intros from; [reflexivity|].
  cbn. f_equal. f_equal. apply IH.
Qed.

Lemma dtor_sessionData_loop (l : list (string * ptr)) (s : state) :
  for_each l dtor_sessionData_entry s =
    (Ret tt,
     State (self s)
       (with_calls
          (calls (env s) ++ map EvFree (List.filter nonnull (map snd l)))
          (env s))).
Proof.
  revert s. induction l as [|[k v] l IH]; intros [c w].
  - destruct w. run. rewrite app_nil_r. reflexivity.
  - cbn [for_each map List.filter snd]. unfold dtor_sessionData_entry at 1.
    run. destruct (nonnull v); run; rewrite IH; run;
      rewrite <- ?app_assoc; reflexivity.
Qed.

Lemma dtor_markedHeaders_loop (l : list (ptr * ptr)) (s : state) :
  for_each l dtor_markedHeaders_entry s =
    (Ret tt,
     State (self s)
       (with_calls
          (calls (env s) ++ map EvFree (markedHeaders_ptrs l))
          (env s))).
Proof.
  unfold markedHeaders_ptrs.
  revert s. induction l as [|[a b] l IH]; intros [c w].
  - destruct w. run. rewrite app_nil_r. reflexivity.
  - cbn [for_each flat_map app List.filter snd fst].
    unfold dtor_markedHeaders_entry at 1. run.
    destruct (nonnull a), (nonnull b); run; rewrite IH; run;
      cbn [map app]; rewrite <- ?app_assoc; reflexivity.
Qed.

(** *** [reset] *)

(** [reset] always returns; it leaves [after_reset] of the object, and
    its calls are the [free]s of the buffers the object owned. *)
Lemma reset_runs (s : state) :
  reset s =
    (Ret tt,
     State (after_reset (self s))
       (with_calls (calls (env s) ++ map EvFree (owned (self s))) (env s))).
Proof.
  destruct s as [c w]. unfold reset.
  unfold bind at 1. unfold get at 1. unfold gets at 1. cbn [self].
  unfold bind at 1.
  destruct (reset_sessionData_loop (map_to_list (sessionData c)) (State c w))
    as [m' ->].
  unfold bind at 1. unfold set at 1, modify at 1. cbn [self env].
  unfold bind at 1. unfold get at 1. unfold gets at 1. cbn [self].
  unfold bind at 1.
  match goal with
  | |- context [for_each ?l _ ?s0] =>
      destruct (reset_markedHeaders_loop l s0) as [l' ->]
  end.
  rewrite indexed_pointers.
  unfold after_reset, owned, sessionData_ptrs, markedHeaders_ptrs.
  destruct c, w. run. rewrite map_app, app_assoc. reflexivity.
Qed.

(** *** The destructor *)

(** In the state "flag set, handle null" the destructor ends in its
    [cleanup], at [fclose(nullptr)], before any entry is released. *)
Lemma dtor_undefined (s : state) :
  fcontentStatus (self s) = true ->
  fcontent (self s) = nullptr ->
  Client_dtor s =
    (Undefined "fclose(nullptr)",
     State (self s) (with_calls (calls (env s) ++ [EvFclose nullptr]) (env s))).
Proof.
  intros Hst Hnull. unfold Client_dtor, try_catch. unfold bind at 1.
  rewrite (cleanup_undefined s Hst Hnull). reflexivity.
Qed.

(** In any other state the destructor returns: after the calls of
    [cleanup] come the [free]s of the buffers the object owns. *)
Lemma dtor_runs (s : state) :
  spool_sound (self s) ->
  exists w' tr,
    Client_dtor s = (Ret tt, State (with_fcontent nullptr (self s)) w')
    /\ calls w' = calls (env s) ++ tr ++ map EvFree (owned (self s))
    /\ frees tr = []
    /\ fcloses tr =
         (if nonnull (fcontent (self s)) then [fcontent (self s)] else []).
Proof.
  intros Hsound.
  destruct (cleanup_runs s Hsound)
    as (w1 & tr & Hrun & Hcalls & _ & Hfrees & Hfcloses & _).
  unfold Client_dtor, try_catch. unfold bind at 1. rewrite Hrun.
  unfold bind at 1, get at 1, gets at 1. cbn [self].
  unfold bind at 1. rewrite dtor_sessionData_loop. cbn [self env].
  unfold bind at 1, get at 1, gets at 1. cbn [self].
  rewrite dtor_markedHeaders_loop. cbn [self env].
  eexists _, tr. split; [reflexivity|].
  split; [|split; assumption].
  destruct s as [c w]. destruct c, w1. revert Hcalls. run. intros ->.
  unfold owned, sessionData_ptrs. run.
  rewrite map_app, <- !app_assoc. reflexivity.
Qed.

(** *** [createContentFile] *)

(** In the state "flag set, handle null" the call ends in its [cleanup],
    at [fclose(nullptr)]. *)
Lemma createContentFile_undefined (tmpdir : string) (rnd : nat -> ascii)
    (reply : open_reply) (s : state) :
  fcontentStatus (self s) = true ->
  fcontent (self s) = nullptr ->
  createContentFile tmpdir rnd reply s =
    (Undefined "fclose(nullptr)",
     State (self s) (with_calls (calls (env s) ++ [EvFclose nullptr]) (env s))).
Proof.
  intros Hst Hnull.
  unfold createContentFile. unfold bind at 1, try_catch at 1, bind at 1.
  rewrite (cleanup_undefined s Hst Hnull). reflexivity.
Qed.

(** In any other state, after the calls of [cleanup]: when [tmpdir] does
    not exist, one line on [std::cerr] and [false]; when its status cannot
    be read, the [filesystem_error] leaves the method; otherwise [temp] is
    renewed, and either [fopen] returns [f], which becomes the handle
    while the flag is set, and the result tells whether [f] is null; or
    the [try] block raises, the handle is set to null, one line goes to
    [std::cerr] and the result is [false]. *)
Lemma createContentFile_runs (tmpdir : string) (rnd : nat -> ascii)
    (reply : open_reply) (s : state) :
  spool_sound (self s) ->
  exists w1,
    cleanup s = (Ret tt, State (with_fcontent nullptr (self s)) w1)
    /\ createContentFile tmpdir rnd reply s =
         match status_of tmpdir w1 with
         | None =>
             (Ret false,
              State (with_fcontent nullptr (self s))
                (with_calls
                   (calls w1 ++ [EvCerr "Error: Can not access temporary directory"])
                   w1))
         | Some Unreadable =>
             (Throw status_error, State (with_fcontent nullptr (self s)) w1)
         | Some _ =>
             let t := unique_path (tmpdir +:+ "/%%%%-%%%%-%%%%-%%%%.eml") rnd in
             match reply with
             | Fopen_returns f =>
                 (Ret (nonnull f),
                  State (with_fcontentStatus true
                           (with_fcontent f (with_temp t (self s))))
                    (opened t f w1))
             | Try_throws what =>
                 (Ret false,
                  State (with_fcontent nullptr (with_temp t (self s)))
                    (with_calls (calls w1 ++ [EvCerr ("Error: " +:+ what)]) w1))
             end
         end.
Proof.
  intros Hsound.
  destruct (cleanup_runs s Hsound) as (w1 & tr & Hrun & _).
  exists w1. split; [assumption|].
  unfold createContentFile. unfold bind at 1, try_catch at 1, bind at 1.
  rewrite Hrun. destruct s as [c w]. destruct c, w1 as [fs un u tr1].
  unfold opened. run.
  destruct (String.eqb tmpdir "") eqn:Hd; run; rewrite ?Hd; run; [reflexivity|].
  destruct (fs !! tmpdir) as [[| | |]|] eqn:Hfs; run; rewrite ?Hd, ?Hfs; run;
    try reflexivity;
    (destruct reply as [f|what]; run; [destruct (nonnull f) eqn:Hf; run; rewrite ?Hf|];
     reflexivity).
Qed.

(** *** The constructor *)

(** The derivation returns for every address that is not null, and what
    it returns is the descriptor of the specification; the counter and
    the file system are left alone. *)
Lemma prepareIPandPort_runs (sa : sockaddr) (w : world) :
  exists w',
    prepareIPandPort (Some sa) w = (Ret (descriptor sa), w')
    /\ uniqueId w' = uniqueId w
    /\ files w' = files w.
Proof.
  unfold prepareIPandPort, descriptor, resolved.
  destruct (Z.eqb_spec (sa_family sa) AF_INET) as [H4|H4].
  - rewrite decide_True by assumption.
    destruct (getnameinfo _ _ _ _ _) as [[code host] port].
    destruct (Z.eqb code 0); destruct w; run; eexists; repeat split.
  - rewrite decide_False by assumption.
    destruct (Z.eqb_spec (sa_family sa) AF_INET6) as [H6|H6].
    + rewrite decide_True by assumption.
      destruct (getnameinfo _ _ _ _ _) as [[code host] port].
      destruct (Z.eqb code 0); destruct w; run; eexists; repeat split.
    + rewrite decide_False by assumption.
      destruct w; run; eexists; repeat split.
Qed.

Lemma ctor_runs (hostname_ : string) (sa : sockaddr) (w : world) :
  exists w',
    Client_ctor hostname_ (Some sa) w =
      (Ret (constructed hostname_ (descriptor sa) (increment (uniqueId w))), w')
    /\ uniqueId w' = increment (uniqueId w).
Proof.
  destruct (prepareIPandPort_runs sa w) as (w1 & Hrun & Hid & _).
  unfold Client_ctor. unfold bind at 1. rewrite Hrun.
  unfold id_initializer, constructed. destruct w1. revert Hid. run.
  intros ->. eexists. split; reflexivity.
Qed.

(** Two constructions in a row never yield the same identifier. *)
Lemma successive_identifiers_differ (u : N) :
  increment (increment u) <> increment u.
Proof.
  unfold increment, counter_wrap, counter_bits.
  assert (Hlt : (u + 1) mod 2 ^ 64 < 2 ^ 64) by (apply N.mod_lt; discriminate).
  set (v := (u + 1) mod 2 ^ 64) in *.
  destruct (N.eq_dec (v + 1) (2 ^ 64)) as [Hfull|Hroom].
  - rewrite Hfull, N.Div0.mod_same. lia.
  - rewrite N.mod_small by lia. lia.
Qed.

(** *** The spool handle and the flag *)


(** C3 (as amended).  When [tmpdir] does not exist, on an object that is
    not in the state "flag set, handle null", [createContentFile] first
    runs [cleanup]: a handle that is not null is closed, by one [fclose],
    and set to null, and the content file, when it is a regular file that
    can be removed, is removed unless the build keeps it (the file system
    is untouched in a build that does).  It then writes one line to
    [std::cerr] and returns [false]; [temp] and the flag [fcontentStatus]
    are as they were before the call, and nothing is freed. *)
Theorem C3_missing_directory (tmpdir : string) (rnd : nat -> ascii)
    (reply : open_reply) (s : state) :
  status_of tmpdir (env s) = None ->
  spool_sound (self s) ->
  let s' := after (createContentFile tmpdir rnd reply) s in
  outcome (createContentFile tmpdir rnd reply) s = Ret false
  /\ fcontent (self s') = nullptr
  /\ temp (self s') = temp (self s)
  /\ fcontentStatus (self s') = fcontentStatus (self s)
  /\ (exists tr,
        calls (env s') =
          calls (env s) ++ tr ++ [EvCerr "Error: Can not access temporary directory"]
        /\ fcloses tr =
             (if nonnull (fcontent (self s)) then [fcontent (self s)] else [])
        /\ frees tr = []
        /\ (KEEP_TEMPFILES = false ->
            status_of (temp (self s)) (env s) = Some Regular ->
            temp (self s) ∉ unremovable (env s) ->
            In (EvRemove (temp (self s))) tr
            /\ status_of (temp (self s)) (env s') = None))
  /\ (KEEP_TEMPFILES = true -> files (env s') = files (env s))
  /\ s' = State (self (after cleanup s))
            (with_calls
               (calls (env (after cleanup s))
                ++ [EvCerr "Error: Can not access temporary directory"])
               (env (after cleanup s))).
Proof.
  intros Hdir Hsound s'. subst s'. unfold after, outcome.
  destruct (createContentFile_runs tmpdir rnd reply s Hsound) as (w1 & Hclean & ->).
  destruct (cleanup_runs s Hsound)
    as (w2 & tr & Hclean' & Hcalls & _ & Hfrees & Hcl & Hfs & Hkept & Hremoved).
  rewrite Hclean in Hclean'. injection Hclean' as <-.
  rewrite Hclean.
  destruct (Hfs tmpdir) as [Hsame|[Hreg _]]; [|congruence].
  rewrite Hsame, Hdir. cbn [fst snd self env].
  split; [reflexivity|].
  split; [destruct s as [c w]; destruct c; reflexivity|].
  split; [destruct s as [c w]; destruct c; reflexivity|].
  split; [destruct s as [c w]; destruct c; reflexivity|].
  split; [|split].
  - exists tr. split; [|split; [exact Hcl|split; [exact Hfrees|]]].
    + destruct w1. cbn in *. rewrite Hcalls, <- app_assoc. reflexivity.
    + intros Hkeep Hreg Hfree.
      destruct (Hremoved Hkeep Hreg Hfree) as [Hin Hgone].
      split; [exact Hin|]. destruct w1. exact Hgone.
  - intros Hkeep. specialize (Hkept Hkeep). destruct w1. exact Hkept.
  - reflexivity.
Qed.

(** *** [reset] against a new object *)

(** C4 (as amended).  [reset] always returns and leaves an object with
    empty [sessionData] and [markedHeaders], [mailflags] none,
    [optionalPreamble] true, [genericError] false and [fcontentStatus]
    false; [id], [ipAndPort], [hostname], and also the handle [fcontent]
    and the path [temp], are what they were: the object is the newly
    constructed one except that it keeps its handle and its path.  The
    handle is not released: the calls [reset] makes are the [free]s of
    the entries' buffers and no other, the file system is as before, and
    it is the [cleanup] that runs next which calls [fclose], when the
    handle is not null. *)
Theorem C4_reset_restores_defaults (s : state) :
  let c := self s in
  let c' := self (after reset s) in
  outcome reset s = Ret tt
  /\ sessionData c' = ∅ /\ markedHeaders c' = []
  /\ mailflags c' = TYPE_NONE /\ optionalPreamble c' = true
  /\ genericError c' = false /\ fcontentStatus c' = false
  /\ id c' = id c /\ ipAndPort c' = ipAndPort c /\ hostname c' = hostname c
  /\ fcontent c' = fcontent c /\ temp c' = temp c
  /\ c' = with_temp (temp c)
            (with_fcontent (fcontent c)
               (constructed (hostname c) (ipAndPort c) (id c)))
  /\ calls (env (after reset s)) = calls (env s) ++ map EvFree (owned c)
  /\ fcloses (map EvFree (owned c)) = []
  /\ files (env (after reset s)) = files (env s)
  /\ (exists tr,
        outcome cleanup (after reset s) = Ret tt
        /\ calls (env (after cleanup (after reset s)))
           = calls (env (after reset s)) ++ tr
        /\ fcloses tr = (if nonnull (fcontent c) then [fcontent c] else [])).
Proof.
  cbv zeta.
  assert (Hsound : spool_sound (self (after reset s))).
  { unfold after. rewrite reset_runs. intros Hflag. discriminate Hflag. }
  assert (Hkeep : fcontent (self (after reset s)) = fcontent (self s)).
  { unfold after. rewrite reset_runs. destruct s as [c w]. destruct c. reflexivity. }
  repeat match goal with |- _ /\ _ => split end;
    try (unfold after, outcome; rewrite reset_runs; destruct s as [c w];
         destruct c, w; reflexivity).
  - apply fcloses_map_EvFree.
  - remember (after reset s) as r eqn:Hr. unfold after, outcome.
    destruct (cleanup_runs r Hsound)
      as (w2 & tr & -> & Hcalls & _ & _ & Hcl & _).
    exists tr. cbn [fst snd self env].
    split; [reflexivity|]. split; [exact Hcalls|].
    rewrite Hcl, Hkeep. reflexivity.
Qed.

(** *** Releasing the entries *)

Lemma In_EvFree (p : ptr) (tr : list event) : In (EvFree p) tr <-> In p (frees tr).
Proof.
  induction tr as [|e tr IH]; [reflexivity|].
  destruct e; cbn; rewrite <- IH; intuition congruence.
Qed.

(** What the object owns once the callbacks have filled its empty
    containers is what they placed. *)
Lemma owned_placed (f : filling) (c : Client) :
  sessionData c = ∅ -> markedHeaders c = [] ->
  owned (with_markedHeaders (markedHeaders c ++ headers f)
           (with_sessionData (annotations f ∪ sessionData c) c))
  = placed f.
Proof.
  intros Hsd Hmh. unfold owned, placed. cbn.
  rewrite Hsd, Hmh, (right_id_L ∅ (∪)). reflexivity.
Qed.

(** The reuses of an object that starts with empty containers always
    return, and their calls are the [free]s of what was placed before each
    [reset], in order; the containers are empty again afterwards. *)
Lemma reuses_runs (fs : list filling) (s : state) :
  sessionData (self s) = ∅ -> markedHeaders (self s) = [] ->
  spool_sound (self s) ->
  exists c',
    reuses fs s =
      (Ret tt,
       State c'
         (with_calls (calls (env s) ++ map EvFree (flat_map placed fs)) (env s)))
    /\ sessionData c' = ∅ /\ markedHeaders c' = [] /\ spool_sound c'.
Proof.
  revert s. induction fs as [|f fs IH]; intros [c w] Hsd Hmh Hsound.
  - exists c. destruct w. run. rewrite app_nil_r. repeat split; assumption.
  - cbn [reuses flat_map]. unfold bind at 1, place at 1, set at 1, modify at 1.
    cbn [self env]. unfold bind at 1. rewrite reset_runs. cbn [self env].
    cbn [self] in Hsd, Hmh. rewrite (owned_placed f c Hsd Hmh).
    match goal with
    | |- context [reuses fs ?s0] =>
        destruct (IH s0) as (c' & -> & Hsd' & Hmh' & Hsound');
        [reflexivity | reflexivity | intros Hflag; discriminate Hflag |]
    end.
    exists c'. split; [|repeat split; assumption].
    destruct w. run. rewrite map_app, <- app_assoc. reflexivity.
Qed.

(** X15.  Over a life of an object that starts with empty containers and
    not in the state "flag set, handle null" (any number of reuses, each
    one entries added by the callbacks and then [reset]; entries added a
    last time and then the destructor), the calls are exactly these: at
    each [reset] one [free] for every buffer placed since the [reset]
    before, then in the destructor the calls of [cleanup], which frees
    nothing, then one [free] for every buffer placed last.  So a buffer
    is released once for each time it is placed, by the [reset] or the
    destructor that follows, and by no later one; a reuse may place
    nothing, which covers [reset] called again and the destructor right
    after a [reset]; an address may be placed again after its release. *)
Theorem X15_released_once_per_placement (fs : list filling) (last : filling)
    (s : state) :
  sessionData (self s) = ∅ -> markedHeaders (self s) = [] ->
  spool_sound (self s) ->
  exists s' closing,
    lifetime fs last s = (Ret tt, s')
    /\ calls (env s') =
         calls (env s)
         ++ map EvFree (flat_map placed fs)
         ++ closing
         ++ map EvFree (placed last)
    /\ frees closing = []
    /\ frees (map EvFree (flat_map placed fs) ++ closing ++ map EvFree (placed last))
       = flat_map placed fs ++ placed last.
Proof.
  intros Hsd Hmh Hsound.
  destruct (reuses_runs fs s Hsd Hmh Hsound) as (c1 & Hreuses & Hsd1 & Hmh1 & Hsound1).
  unfold lifetime. unfold bind at 1. rewrite Hreuses.
  unfold bind at 1, place at 1, set at 1, modify at 1. cbn [self env].
  match goal with
  | |- context [Client_dtor ?s0] =>
      destruct (dtor_runs s0) as (w' & tr & -> & Hcalls & Hfrees & _);
      [destruct c1; exact Hsound1|]
  end.
  cbn [self env] in Hcalls. rewrite (owned_placed last c1 Hsd1 Hmh1) in Hcalls.
  eexists _, tr. split; [reflexivity|]. split; [|split; [exact Hfrees|]].
  - cbn [env]. rewrite Hcalls. destruct s as [c w]. destruct w. run.
    rewrite <- !app_assoc. reflexivity.
  - rewrite !frees_app, !frees_map_EvFree, Hfrees. reflexivity.
Qed.

(** X16.  [reset] and the destructor skip the pointers that are null:
    neither ever calls [free(nullptr)], and what they free are exactly the
    pointers of the entries that are not null.  [reset] always returns and
    leaves both containers empty; the destructor returns whenever the
    object is not in the state "flag set, handle null". *)
Theorem X16_null_entries_skipped (s : state) :
  (exists tr,
     outcome reset s = Ret tt
     /\ sessionData (self (after reset s)) = ∅
     /\ markedHeaders (self (after reset s)) = []
     /\ calls (env (after reset s)) = calls (env s) ++ tr
     /\ ~ In (EvFree nullptr) tr
     /\ frees tr = owned (self s))
  /\ (spool_sound (self s) ->
      exists tr,
        (destroy (self s) (env s)).1 = Ret tt
        /\ calls (destroy (self s) (env s)).2 = calls (env s) ++ tr
        /\ ~ In (EvFree nullptr) tr
        /\ frees tr = owned (self s)).
Proof.
  split.
  - exists (map EvFree (owned (self s))). unfold after, outcome.
    rewrite reset_runs. destruct s as [c w]. destruct c, w. cbn.
    repeat split.
    + rewrite In_EvFree, frees_map_EvFree. apply owned_nonnull.
    + apply frees_map_EvFree.
  - intros Hsound. unfold destroy.
    destruct (dtor_runs (State (self s) (env s)) Hsound)
      as (w' & tr & -> & Hcalls & Hfrees & _).
    cbn [self env fst snd] in *.
    exists (tr ++ map EvFree (owned (self s))).
    assert (Hall : frees (tr ++ map EvFree (owned (self s))) = owned (self s)).
    { rewrite frees_app, frees_map_EvFree, Hfrees. reflexivity. }
    repeat split; try assumption.
    rewrite In_EvFree, Hall. apply owned_nonnull.
Qed.

(** *** The address *)

(** C9.  With a null address the derivation stops at its assertion, and
    so does the constructor: no object is built and no descriptor, not
    even ["unknown"], is produced.  With any address that is not null
    the derivation returns a string and the constructor an object. *)
Theorem C9_null_address_asserts (hostname_ : string) (w : world) :
  prepareIPandPort None w = (Abort "hostaddr != nullptr", w)
  /\ Client_ctor hostname_ None w = (Abort "hostaddr != nullptr", w)
  /\ (forall sa, exists text w', prepareIPandPort (Some sa) w = (Ret text, w'))
  /\ (forall sa, exists c w', Client_ctor hostname_ (Some sa) w = (Ret c, w')).
Proof.
  split; [reflexivity|]. split; [reflexivity|]. split; intros sa.
  - destruct (prepareIPandPort_runs sa w) as (w' & -> & _). eauto.
  - destruct (ctor_runs hostname_ sa w) as (w' & -> & _). eauto.
Qed.

(** The descriptor of a constructed object is the one the specification
    words describe, whatever the address (not null). *)
Lemma ctor_descriptor (hostname_ : string) (sa : sockaddr) (w : world) :
  exists c w',
    Client_ctor hostname_ (Some sa) w = (Ret c, w')
    /\ ipAndPort c = descriptor sa.
Proof.
  destruct (ctor_runs hostname_ sa w) as (w' & -> & _).
  eexists _, w'. split; reflexivity.
Qed.

(** ** Further properties of the methods *)

(** *** What [createContentFile] returns *)

(** X1.  Whenever [createContentFile] returns, the boolean it returns
    tells whether the object holds a handle after the call: [true]
    exactly when [fcontent] is not null.  (It need not return: a status
    query on [tmpdir] can raise, and in the state "flag set, handle null"
    its [cleanup] calls [fclose(nullptr)].) *)
Theorem X1_result_tells_handle (tmpdir : string) (rnd : nat -> ascii)
    (reply : open_reply) (s s' : state) (b : bool) :
  createContentFile tmpdir rnd reply s = (Ret b, s') ->
  b = nonnull (fcontent (self s')).
Proof.
  intros Hcall.
  destruct (sound_or_not (self s)) as [Hsound|[Hst Hnull]].
  - destruct (createContentFile_runs tmpdir rnd reply s Hsound) as (w1 & _ & Hrun).
    rewrite Hrun in Hcall. clear Hrun.
    destruct s as [c w]. destruct c.
    destruct (status_of tmpdir w1) as [[| | |]|]; try discriminate Hcall;
      try (destruct reply); injection Hcall as <- <-; reflexivity.
  - rewrite (createContentFile_undefined _ _ _ _ Hst Hnull) in Hcall.
    discriminate Hcall.
Qed.

(** A status query on [tmpdir] that fails raises out of the method, after
    the calls of [cleanup]: no line is written for it and no boolean is
    returned. *)
Lemma unreadable_tmpdir_raises (tmpdir : string) (rnd : nat -> ascii)
    (reply : open_reply) (s : state) :
  spool_sound (self s) ->
  status_of tmpdir (env s) = Some Unreadable ->
  createContentFile tmpdir rnd reply s = (Throw status_error, after cleanup s).
Proof.
  intros Hsound Hdir. unfold after.
  destruct (createContentFile_runs tmpdir rnd reply s Hsound) as (w1 & Hclean & ->).
  destruct (cleanup_runs s Hsound) as (w2 & tr & Hclean' & _ & _ & _ & _ & Hfs & _).
  rewrite Hclean in Hclean'. injection Hclean' as <-. rewrite Hclean.
  destruct (Hfs tmpdir) as [Hsame|[Hreg _]]; [|congruence].
  rewrite Hsame, Hdir. reflexivity.
Qed.

(** *** [reset], composed and confined *)

(** X8.  A second [reset] right after a [reset] changes nothing and makes
    no call: the two in a row are one. *)
Theorem X8_reset_twice_is_reset (s : state) :
  (reset ;; reset) s = reset s.
Proof.
  unfold bind. rewrite reset_runs, reset_runs.
  destruct s as [c w]. destruct c, w.
  unfold owned, sessionData_ptrs, markedHeaders_ptrs, after_reset. run.
  rewrite map_to_list_empty. cbn. rewrite app_nil_r. reflexivity.
Qed.

(** X9.  [reset] calls nothing but [free]: it closes no handle, removes no
    file and writes nothing to [std::cerr]; the file system and the
    counter are as before, so a content file that was open stays open
    and on disk. *)
Theorem X9_reset_only_frees (s : state) :
  exists tr,
    calls (env (after reset s)) = calls (env s) ++ tr
    /\ tr = map EvFree (frees tr)
    /\ fcloses tr = [] /\ reports tr = []
    /\ files (env (after reset s)) = files (env s)
    /\ uniqueId (env (after reset s)) = uniqueId (env s)
    /\ (forall p, status_of p (env (after reset s)) = status_of p (env s)).
Proof.
  exists (map EvFree (owned (self s))). unfold after. rewrite reset_runs.
  destruct s as [c w]. destruct w. cbn.
  split; [reflexivity|]. split; [rewrite frees_map_EvFree; reflexivity|].
  split; [apply fcloses_map_EvFree|].
  split; [|repeat split].
  induction (owned c) as [|p l IH]; [reflexivity|exact IH].
Qed.

(** *** Identifiers of successive constructions *)

(** X11.  Of two constructions made one after the other, the second gets
    the identifier that follows the first's, which is a different one, and
    each leaves the counter at the identifier it assigned. *)
Theorem X11_successive_constructions (h1 h2 : string) (sa1 sa2 : option sockaddr)
    (w w1 w2 : world) (c1 c2 : Client) :
  Client_ctor h1 sa1 w = (Ret c1, w1) ->
  Client_ctor h2 sa2 w1 = (Ret c2, w2) ->
  id c1 = increment (uniqueId w) /\ uniqueId w1 = id c1
  /\ id c2 = increment (id c1) /\ uniqueId w2 = id c2
  /\ id c1 <> id c2.
Proof.
  intros H1 H2.
  destruct sa1 as [sa1|]; [|discriminate H1].
  destruct sa2 as [sa2|]; [|discriminate H2].
  destruct (ctor_runs h1 sa1 w) as (w1' & E1 & U1).
  rewrite E1 in H1. injection H1 as <- <-.
  destruct (ctor_runs h2 sa2 w1') as (w2' & E2 & U2).
  rewrite E2 in H2. injection H2 as <- <-.
  cbn [id constructed]. rewrite U2, U1.
  repeat split. intros H. symmetry in H.
  exact (successive_identifiers_differ _ H).
Qed.

(** *** [cleanup], case by case *)

(** X6.  In a build with [_KEEP_TEMPFILES], on an object that is not in
    the state "flag set, handle null", [cleanup] returns, never removes a
    file and never writes to [std::cerr]: its only possible call is the
    [fclose] of the handle, made exactly when the handle is not null, and
    the file system is as before. *)
Theorem X6_retention_keeps_files (s : state) :
  KEEP_TEMPFILES = true ->
  spool_sound (self s) ->
  outcome cleanup s = Ret tt
  /\ files (env (after cleanup s)) = files (env s)
  /\ calls (env (after cleanup s)) =
       calls (env s)
       ++ (if nonnull (fcontent (self s))
           then [EvFclose (fcontent (self s))] else []).
Proof.
  intros Hkeep. destruct s as [c w]. destruct c as [f h ip i mf op ge st t sd mh].
  destruct w as [fs un u tr0]. unfold spool_sound. run. intros Hsound.
  assert (Hcond : st || nonnull f = nonnull f).
  { destruct (nonnull f) eqn:Hf; [apply orb_true_r|].
    destruct st; [|reflexivity].
    apply nonnull_false in Hf. elim (Hsound eq_refl Hf). }
  unfold outcome, after, cleanup. run. rewrite Hkeep, Hcond.
  destruct (nonnull f) eqn:Hf; run; rewrite ?Hf; run; cbn;
    rewrite ?app_nil_r; repeat split.
Qed.

(** X5.  In a build without [_KEEP_TEMPFILES], on an object that is not
    in the state "flag set, handle null", when the content file is there
    but [fs::remove] raises, [cleanup] still returns: the error is written
    to [std::cerr], once, the file stays, and the handle is null all the
    same. *)
Theorem X5_removal_failure_absorbed (s : state) :
  KEEP_TEMPFILES = false ->
  spool_sound (self s) ->
  status_of (temp (self s)) (env s) = Some Regular ->
  temp (self s) ∈ unremovable (env s) ->
  exists tr what,
    outcome cleanup s = Ret tt
    /\ calls (env (after cleanup s)) = calls (env s) ++ tr
    /\ reports tr = ["Error: " +:+ what]
    /\ In (EvRemove (temp (self s))) tr
    /\ files (env (after cleanup s)) = files (env s)
    /\ fcontent (self (after cleanup s)) = nullptr.
Proof.
  intros Hkeep.
  destruct s as [c w]. destruct c as [f h ip i mf op ge st t sd mh].
  destruct w as [fs un u tr0]. unfold spool_sound. run.
  intros Hsound Hreg Hstuck.
  assert (Hcond : st || nonnull f = nonnull f).
  { destruct (nonnull f) eqn:Hf; [apply orb_true_r|].
    destruct st; [|reflexivity].
    apply nonnull_false in Hf. elim (Hsound eq_refl Hf). }
  revert Hreg. destruct (String.eqb t "") eqn:Ht; intros Hreg; [discriminate Hreg|].
  unfold outcome, after, cleanup. run. rewrite Hcond.
  destruct (nonnull f) eqn:Hf; run; rewrite ?Hf; run; rewrite Hkeep;
    repeat (progress (run; rewrite ?Ht, ?Hreg));
    rewrite (bool_decide_eq_true_2 _ Hstuck); run.
  - exists [EvFclose f; EvRemove t;
            EvCerr "Error: boost::filesystem::remove: Operation not permitted"],
      "boost::filesystem::remove: Operation not permitted".
    rewrite <- !app_assoc.
    split; [reflexivity|]. split; [reflexivity|]. split; [reflexivity|].
    split; [cbn; auto|]. split; reflexivity.
  - apply nonnull_false in Hf.
    exists [EvRemove t;
            EvCerr "Error: boost::filesystem::remove: Operation not permitted"],
      "boost::filesystem::remove: Operation not permitted".
    rewrite <- !app_assoc.
    split; [reflexivity|]. split; [reflexivity|]. split; [reflexivity|].
    split; [cbn; auto|]. split; [reflexivity|exact Hf].
Qed.

(** X10.  With the flag clear, a content file that can be removed and
    whose status can be read, a second [cleanup] right after a [cleanup]
    makes no call and changes nothing: the two in a row are one.  This
    is the state [reset] leaves: the first [cleanup] closes the handle
    that [reset] left open and removes the file, the second finds nothing
    to do. *)
Theorem X10_cleanup_twice_flag_clear (s : state) :
  fcontentStatus (self s) = false ->
  temp (self s) ∉ unremovable (env s) ->
  status_of (temp (self s)) (env s) <> Some Unreadable ->
  (cleanup ;; cleanup) s = cleanup s.
Proof.
  intros Hflag Hfree Hread.
  destruct s as [c w]. destruct c as [f h ip i mf op ge st t sd mh].
  destruct w as [fs un u tr0]. revert Hflag Hfree Hread. run.
  intros -> Hfree Hread.
  unfold cleanup. run.
  destruct (nonnull f) eqn:Hf;
    [|apply nonnull_false in Hf; subst f];
    repeat (progress (change (nonnull nullptr) with false; rewrite ?Hf; run));
    (destruct KEEP_TEMPFILES;
     repeat (progress (change (nonnull nullptr) with false; run));
     [reflexivity|]);
    (destruct (String.eqb t "") eqn:Ht;
     repeat (progress (change (nonnull nullptr) with false; rewrite ?Ht; run));
     [reflexivity|]);
    (destruct (fs !! t) as [[| | |]|] eqn:Hfs;
     try (elim Hread; reflexivity);
     repeat (progress (change (nonnull nullptr) with false;
                       rewrite ?(bool_decide_eq_false_2 _ Hfree), ?Ht, ?Hfs,
                         ?lookup_delete_eq; run));
     reflexivity).
Qed.

(** *** [createContentFile] on an object without a content file *)

(** X13.  On an object that has no content file (handle null, flag clear,
    path empty), a call with a directory that does not exist leaves the
    object as it was and the file system as it was; it makes one call,
    the line on [std::cerr], and returns [false]. *)
Theorem X13_failed_open_leaves_new_object (tmpdir : string) (rnd : nat -> ascii)
    (reply : open_reply) (s : state) :
  status_of tmpdir (env s) = None ->
  fcontent (self s) = nullptr ->
  fcontentStatus (self s) = false ->
  temp (self s) = "" ->
  createContentFile tmpdir rnd reply s =
    (Ret false,
     State (self s)
       (with_calls
          (calls (env s) ++ [EvCerr "Error: Can not access temporary directory"])
          (env s))).
Proof.
  destruct s as [c w]. destruct c as [f h ip i mf op ge st t sd mh].
  destruct w as [fs un u tr0]. run. intros Hdir -> -> ->.
  unfold createContentFile, cleanup. run.
  change (nonnull nullptr) with false. run.
  destruct KEEP_TEMPFILES; run; cbn [String.eqb]; run; rewrite ?Hdir; run;
    rewrite ?Hdir; reflexivity.
Qed.

(** *** The content file's path *)

Lemma unique_path_plain_prefix (a b : string) (rnd : nat -> ascii) (i : nat) :
  free_of_percent a = true ->
  unique_path_from (a +:+ b) rnd i = a +:+ unique_path_from b rnd i.
Proof.
  induction a as [|ch a IH]; intros Hplain; [reflexivity|].
  cbn in Hplain. apply andb_prop in Hplain as [Hch Ha].
  simpl. destruct (Ascii.eqb ch "%"); [discriminate Hch|].
  rewrite (IH Ha). reflexivity.
Qed.

Lemma content_file_path (tmpdir : string) (rnd : nat -> ascii) :
  free_of_percent tmpdir = true ->
  unique_path (tmpdir +:+ "/%%%%-%%%%-%%%%-%%%%.eml") rnd
  = tmpdir +:+ "/" +:+ eml_name rnd.
Proof.
  intros Hplain. unfold unique_path.
  rewrite (unique_path_plain_prefix _ _ _ _ Hplain). reflexivity.
Qed.

Lemma unique_path_length (model : string) (rnd : nat -> ascii) (i : nat) :
  String.length (unique_path_from model rnd i) = String.length model.
Proof.
  revert i. induction model as [|ch m IH]; intros i; [reflexivity|].
  cbn. destruct (Ascii.eqb ch "%"); cbn; rewrite IH; reflexivity.
Qed.

Lemma unique_path_not_empty (tmpdir : string) (rnd : nat -> ascii) :
  String.eqb (unique_path (tmpdir +:+ "/%%%%-%%%%-%%%%-%%%%.eml") rnd) "" = false.
Proof.
  unfold unique_path. destruct tmpdir as [|ch rest]; simpl; [reflexivity|].
  destruct (Ascii.eqb ch "%"); reflexivity.
Qed.

(** A directory that is there before [cleanup] is there after it. *)
Lemma cleanup_keeps_directories (s : state) (p : string) :
  spool_sound (self s) ->
  status_of p (env s) = Some Directory ->
  status_of p (env (after cleanup s)) = Some Directory.
Proof.
  intros Hsound Hdir. unfold after.
  destruct (cleanup_runs s Hsound) as (w1 & tr & -> & _ & _ & _ & _ & Hfs & _).
  destruct (Hfs p) as [Hsame|[Hreg _]]; [|congruence].
  cbn. rewrite Hsame. exact Hdir.
Qed.

(** X2.  On an object that is not in the state "flag set, handle null",
    a call with an existing directory whose name has no ['%'], in which
    [fopen] returns a handle, returns [true]; the content file is
    [tmpdir/dddd-dddd-dddd-dddd.eml], with the sixteen random digits
    drawn in order, and it is now a regular file; the handle is the one
    [fopen] returned, the flag is set, and [fopen] is the one call made
    after those of [cleanup], which free nothing and close the old handle
    when there is one. *)
Theorem X2_successful_open (tmpdir : string) (rnd : nat -> ascii) (f : ptr)
    (s : state) :
  status_of tmpdir (env s) = Some Directory ->
  free_of_percent tmpdir = true ->
  f <> nullptr ->
  spool_sound (self s) ->
  let call := createContentFile tmpdir rnd (Fopen_returns f) in
  let t := tmpdir +:+ "/" +:+ eml_name rnd in
  outcome call s = Ret true
  /\ temp (self (after call s)) = t
  /\ fcontent (self (after call s)) = f
  /\ fcontentStatus (self (after call s)) = true
  /\ status_of t (env (after call s)) = Some Regular
  /\ calls (env (after call s)) = calls (env (after cleanup s)) ++ [EvFopen t f]
  /\ (exists tr,
        calls (env (after cleanup s)) = calls (env s) ++ tr
        /\ frees tr = []
        /\ fcloses tr =
             (if nonnull (fcontent (self s)) then [fcontent (self s)] else [])).
Proof.
  intros Hdir Hplain Hf Hsound call t. subst call.
  pose proof (cleanup_keeps_directories s tmpdir Hsound Hdir) as Hdir'.
  pose proof (unique_path_not_empty tmpdir rnd) as Hne.
  assert (Hcleanup : exists tr,
             calls (env (after cleanup s)) = calls (env s) ++ tr
             /\ frees tr = []
             /\ fcloses tr =
                  (if nonnull (fcontent (self s)) then [fcontent (self s)] else [])).
  { unfold after.
    destruct (cleanup_runs s Hsound) as (w2 & tr & -> & Hcalls & _ & Hfr & Hcl & _).
    exists tr. repeat split; assumption. }
  revert Hdir' Hcleanup. unfold outcome, after.
  destruct (createContentFile_runs tmpdir rnd (Fopen_returns f) s Hsound)
    as (w1 & -> & ->).
  cbn [snd env]. intros -> Hcleanup. cbn zeta.
  rewrite (content_file_path _ _ Hplain) in *. fold t in Hne |- *.
  apply nonnull_spec in Hf. rewrite Hf.
  split; [reflexivity|].
  repeat (split; [destruct s as [c w]; destruct c; reflexivity|]).
  split; [|split; [|exact Hcleanup]].
  - unfold opened. rewrite Hf. destruct w1 as [fs un u tr1]. run.
    rewrite Hne. apply lookup_insert_eq.
  - unfold opened. rewrite Hf. destruct w1 as [fs un u tr1]. reflexivity.
Qed.

(** *** An open content file, closed *)

(** [cleanup] on an object that holds an open handle and whose content
    file is there and can be removed: the handle is closed, then the file
    removed unless the build keeps it. *)
Lemma cleanup_open_spool (s : state) :
  fcontent (self s) <> nullptr ->
  status_of (temp (self s)) (env s) = Some Regular ->
  temp (self s) ∉ unremovable (env s) ->
  cleanup s =
    (Ret tt,
     State (with_fcontent nullptr (self s))
       (World
          (if KEEP_TEMPFILES then files (env s)
           else delete (temp (self s)) (files (env s)))
          (unremovable (env s)) (uniqueId (env s))
          (calls (env s)
           ++ EvFclose (fcontent (self s))
              :: (if KEEP_TEMPFILES then [] else [EvRemove (temp (self s))])))).
Proof.
  destruct s as [c w]. destruct c as [f h ip i mf op ge st t sd mh].
  destruct w as [fs un u tr0]. run. intros Hf Hreg Hfree.
  apply nonnull_spec in Hf.
  revert Hreg. destruct (String.eqb t "") eqn:Ht; intros Hreg; [discriminate Hreg|].
  unfold cleanup. run. rewrite Hf, orb_true_r. run. rewrite ?Hf. run.
  destruct KEEP_TEMPFILES; run; [reflexivity|].
  repeat (progress (run; rewrite ?Ht, ?Hreg)).
  rewrite (bool_decide_eq_false_2 _ Hfree). run.
  rewrite <- app_assoc. reflexivity.
Qed.

(** An object that holds a handle is not in the state "flag set, handle
    null". *)
Lemma holding_is_sound (c : Client) : fcontent c <> nullptr -> spool_sound c.
Proof. intros Hf _. exact Hf. Qed.

(** X3.  A call on an object that holds an open handle, with an existing
    directory and an [fopen] that returns a handle: the old handle is
    closed, once and before the new file is opened; the old content file
    is removed unless the build keeps it; the object then holds the new
    handle and the new path, and the new file is a regular file.  The
    calls are, in this order, [fclose], [fs::remove] (unless kept),
    [fopen]. *)
Theorem X3_reopen_replaces_spool (tmpdir : string) (rnd : nat -> ascii)
    (f2 : ptr) (s : state) :
  let f1 := fcontent (self s) in
  let t1 := temp (self s) in
  let t2 := unique_path (tmpdir +:+ "/%%%%-%%%%-%%%%-%%%%.eml") rnd in
  let call := createContentFile tmpdir rnd (Fopen_returns f2) in
  f1 <> nullptr ->
  status_of t1 (env s) = Some Regular ->
  t1 ∉ unremovable (env s) ->
  status_of tmpdir (env s) = Some Directory ->
  f2 <> nullptr ->
  t2 <> t1 ->
  outcome call s = Ret true
  /\ calls (env (after call s)) =
       calls (env s)
       ++ [EvFclose f1] ++ (if KEEP_TEMPFILES then [] else [EvRemove t1])
       ++ [EvFopen t2 f2]
  /\ fcontent (self (after call s)) = f2
  /\ temp (self (after call s)) = t2
  /\ status_of t2 (env (after call s)) = Some Regular
  /\ status_of t1 (env (after call s))
     = (if KEEP_TEMPFILES then Some Regular else None).
Proof.
  intros f1 t1 t2 call Hf1 Hreg Hfree Hdir Hf2 Hne. subst call.
  pose proof (cleanup_keeps_directories s tmpdir (holding_is_sound _ Hf1) Hdir)
    as Hdir'.
  pose proof (unique_path_not_empty tmpdir rnd) as Ht2. fold t2 in Ht2.
  revert Hdir'. unfold outcome, after.
  destruct (createContentFile_runs tmpdir rnd (Fopen_returns f2) s
              (holding_is_sound _ Hf1))
    as (w1 & Hclean & ->).
  rewrite Hclean. cbn [snd env]. intros ->. cbn zeta. fold t2.
  rewrite (cleanup_open_spool s Hf1 Hreg Hfree) in Hclean.
  injection Hclean as <-.
  apply nonnull_spec in Hf2. rewrite Hf2. unfold opened. rewrite Hf2.
  subst f1 t1. destruct s as [c w]. destruct c as [f h ip i mf op ge st t sd mh].
  destruct w as [fs un u tr0]. revert Hreg Hne Ht2. run. intros Hreg Hne Ht2.
  rewrite Ht2, lookup_insert_eq.
  destruct (String.eqb t "") eqn:Ht; [discriminate Hreg|].
  rewrite lookup_insert_ne by exact Hne.
  destruct KEEP_TEMPFILES.
  - rewrite Hreg, <- !app_assoc. repeat split.
  - rewrite lookup_delete_eq, <- !app_assoc. repeat split.
Qed.

(** X4.  Destroying an object that holds an open handle, whose content
    file is there and can be removed: the destructor returns, having
    closed the handle once, then removed the file unless the build keeps
    it, then freed the buffers of the entries; afterwards the file is
    gone, or still a regular file in a build that keeps it. *)
Theorem X4_destroy_releases_spool (c : Client) (w : world) :
  fcontent c <> nullptr ->
  status_of (temp c) w = Some Regular ->
  temp c ∉ unremovable w ->
  (destroy c w).1 = Ret tt
  /\ calls (destroy c w).2 =
       calls w
       ++ [EvFclose (fcontent c)]
       ++ (if KEEP_TEMPFILES then [] else [EvRemove (temp c)])
       ++ map EvFree (owned c)
  /\ status_of (temp c) (destroy c w).2
     = (if KEEP_TEMPFILES then Some Regular else None).
Proof.
  intros Hf Hreg Hfree.
  assert (Hrun :
            destroy c w =
              (Ret tt,
               World
                 (if KEEP_TEMPFILES then files w else delete (temp c) (files w))
                 (unremovable w) (uniqueId w)
                 ((calls w
                   ++ EvFclose (fcontent c)
                      :: (if KEEP_TEMPFILES then [] else [EvRemove (temp c)]))
                  ++ map EvFree (owned c)))).
  { unfold destroy, Client_dtor, try_catch. unfold bind at 1.
    rewrite (cleanup_open_spool (State c w) Hf Hreg Hfree).
    unfold bind at 1, get at 1, gets at 1. cbn [self].
    unfold bind at 1. rewrite dtor_sessionData_loop. cbn [self env].
    unfold bind at 1, get at 1, gets at 1. cbn [self].
    rewrite dtor_markedHeaders_loop.
    unfold owned, sessionData_ptrs. destruct c, w. cbn.
    rewrite map_app, <- !app_assoc. reflexivity. }
  rewrite Hrun. cbn [fst snd calls].
  split; [reflexivity|]. split.
  - destruct KEEP_TEMPFILES; rewrite <- ?app_assoc; reflexivity.
  - revert Hreg. unfold status_of. cbn [files].
    destruct (String.eqb (temp c) ""); [discriminate|]. intros Hreg.
    destruct KEEP_TEMPFILES; [exact Hreg|apply lookup_delete_eq].
Qed.

(** *** The descriptor and the diagnostic *)

Lemma with_colon_differs (k host port : string) :
  colon_free k = true -> String.eqb (host +:+ ":" +:+ port) k = false.
Proof.
  intros Hk. apply String.eqb_neq. revert k Hk.
  induction host as [|ch host IH]; intros k Hk Heq.
  - destruct k as [|c k]; [discriminate Heq|].
    injection Heq as <- _. discriminate Hk.
  - destruct k as [|c k]; [discriminate Heq|].
    injection Heq as _ Heq.
    cbn in Hk. apply andb_prop in Hk as [_ Hk].
    exact (IH k Hk Heq).
Qed.

(** X7.  The derivation writes to [std::cerr] exactly when it gives up:
    one line when the descriptor is ["unknown"], nothing when it is a
    [host:port] text.  It makes no other call, and leaves the file system
    and the counter alone. *)
Theorem X7_unknown_iff_reported (sa : sockaddr) (w : world) :
  exists text w' tr,
    prepareIPandPort (Some sa) w = (Ret text, w')
    /\ calls w' = calls w ++ tr
    /\ tr = map EvCerr (reports tr)
    /\ length tr = (if String.eqb text "unknown" then 1 else 0)%nat
    /\ files w' = files w
    /\ uniqueId w' = uniqueId w.
Proof.
  unfold prepareIPandPort. destruct w as [fs un u tr0].
  destruct (Z.eqb (sa_family sa) AF_INET) eqn:H4.
  - destruct (getnameinfo _ _ _ _ _) as [[code host] port].
    destruct (Z.eqb code 0); run.
    + eexists _, _, []. rewrite app_nil_r. split; [reflexivity|].
      rewrite with_colon_differs by reflexivity. repeat split.
    + eexists _, _, [EvCerr _]. split; [reflexivity|]. repeat split.
  - destruct (Z.eqb (sa_family sa) AF_INET6) eqn:H6.
    + destruct (getnameinfo _ _ _ _ _) as [[code host] port].
      destruct (Z.eqb code 0); run.
      * eexists _, _, []. rewrite app_nil_r. split; [reflexivity|]. repeat split.
      * eexists _, _, [EvCerr _]. split; [reflexivity|]. repeat split.
    + run. eexists _, _, [EvCerr _]. split; [reflexivity|]. repeat split.
Qed.

End Build.

(** ** The samples, run *)

Lemma session0_constructed :
  Client_ctor Numeric.getnameinfo Numeric.gai_strerror "mx.example.org"
    (Some peer_v4) fresh_process
  = (Ret (self session0), env session0).
Proof. vm_compute. reflexivity. Qed.

Lemma spooled_opened (keep : bool) :
  createContentFile keep "/var/spool/sigh" digits (Fopen_returns 7) session0
  = (Ret true, spooled).
Proof. destruct keep; vm_compute; reflexivity. Qed.

(** ** The handle and the flag, on the samples *)



(** C2, at a failing input: the new session [session0] asks for its content
    file in the existing directory and [fopen] returns null.  The call
    returns [false] and the handle is null, but the flag [fcontentStatus]
    is set and nothing is written to [std::cerr].  Had the [try] block
    raised instead, the handler would have reported it and the flag would
    have stayed false. *)
Lemma C2_fopen_failure_sets_flag (keep : bool) :
  let failed := createContentFile keep "/var/spool/sigh" digits
                  (Fopen_returns nullptr) in
  let raised := createContentFile keep "/var/spool/sigh" digits
                  (Try_throws "std::bad_alloc") in
  (outcome failed session0 = Ret false
   /\ fcontent (self (after failed session0)) = nullptr
   /\ fcontentStatus (self (after failed session0)) = true
   /\ reports (calls (env (after failed session0))) = [])
  /\ (outcome raised session0 = Ret false
      /\ fcontent (self (after raised session0)) = nullptr
      /\ fcontentStatus (self (after raised session0)) = false
      /\ reports (calls (env (after raised session0))) = ["Error: std::bad_alloc"]).
Proof. destruct keep; vm_compute; repeat split. Qed.

(** The directory test lets an existing path through whatever it names:
    with the regular file [/etc/passwd] as [tmpdir] the call goes on to
    [fopen], and when that returns null the call fails with the flag set
    and without a line on [std::cerr]. *)
Lemma regular_file_as_tmpdir :
  let call := createContentFile false "/etc/passwd" digits (Fopen_returns nullptr) in
  status_of "/etc/passwd" (env session0) = Some Regular
  /\ outcome call session0 = Ret false
  /\ temp (self (after call session0)) = "/etc/passwd/0123-4567-89ab-cdef.eml"
  /\ fcontentStatus (self (after call session0)) = true
  /\ reports (calls (env (after call session0))) = [].
Proof. vm_compute. repeat split. Qed.

(** Against C3 as stated: the session with an open content file asks for a
    new one in a directory that does not exist.  The call fails, but it
    has closed the handle, set it to null and removed the content file. *)
Lemma C3_counterexample :
  let call := createContentFile false "/nonexistent" digits (Fopen_returns 8) in
  status_of "/nonexistent" (env spooled) = None
  /\ outcome call spooled = Ret false
  /\ fcontent (self spooled) = 7
  /\ fcontent (self (after call spooled)) = nullptr
  /\ fcloses (calls (env (after call spooled))) = [7]
  /\ status_of spool0 (env spooled) = Some Regular
  /\ status_of spool0 (env (after call spooled)) = None.
Proof. vm_compute. repeat split. Qed.

Lemma C3_missing_directory_witness :
  (status_of "/nonexistent" (env spooled) = None
   /\ spool_sound (self spooled))
  /\ outcome (createContentFile false "/nonexistent" digits (Fopen_returns 8))
       spooled = Ret false.
Proof.
  assert (Hdir : status_of "/nonexistent" (env spooled) = None)
    by (vm_compute; reflexivity).
  assert (Hsound : spool_sound (self spooled))
    by (intros _; vm_compute; discriminate).
  split; [split; assumption|].
  exact (proj1 (C3_missing_directory false "/nonexistent" digits (Fopen_returns 8)
                  spooled Hdir Hsound)).
Defined.

(** Against C4 as stated: the session with an open content file, two
    annotations and two marked headers is reset.  It is not the newly
    constructed object: its handle is still the open one, not null, and
    its path is still the content file's. *)
Lemma C4_counterexample :
  let c := populated (self spooled) in
  let c' := self (after reset (State c (env spooled))) in
  c' <> constructed (hostname c) (ipAndPort c) (id c)
  /\ fcontent c' = 7
  /\ temp c' = spool0.
Proof.
  vm_compute. split; [|split; reflexivity].
  intros H. discriminate H.
Qed.

(** C6, at a failing input: the session with an open content file asks for
    a new one in a directory that does not exist, and is then destroyed.
    The first [cleanup] closes handle 7 and nulls the handle, the flag
    stays set, and the destructor's [cleanup] calls [fclose(nullptr)].
    The same happens when the object is destroyed after an [fopen] that
    returned null. *)
Lemma C6_cleanup_closes_null_handle :
  let s2 := after (createContentFile false "/nonexistent" digits (Fopen_returns 8))
              spooled in
  let s3 := after (createContentFile false "/var/spool/sigh" digits
                     (Fopen_returns nullptr)) session0 in
  fcloses (calls (destroy false (self s2) (env s2)).2) = [7; nullptr]
  /\ fcloses (calls (destroy false (self s3) (env s3)).2) = [nullptr].
Proof. vm_compute. split; reflexivity. Qed.

(** ** Releasing the entries, on the samples *)

Lemma X15_released_once_per_placement_witness :
  (sessionData (self session0) = ∅
   /\ markedHeaders (self session0) = []
   /\ spool_sound (self session0))
  /\ exists s' closing,
       lifetime false [first_mail; nothing_placed; first_mail] last_mail session0
       = (Ret tt, s')
       /\ calls (env s') =
            calls (env session0)
            ++ map EvFree (flat_map placed [first_mail; nothing_placed; first_mail])
            ++ closing
            ++ map EvFree (placed last_mail)
       /\ frees closing = []
       /\ frees (map EvFree (flat_map placed [first_mail; nothing_placed; first_mail])
                 ++ closing ++ map EvFree (placed last_mail))
          = flat_map placed [first_mail; nothing_placed; first_mail]
            ++ placed last_mail.
Proof.
  assert (Hsound : spool_sound (self session0))
    by (intros Hflag; discriminate Hflag).
  split; [repeat split; exact Hsound|].
  exact (X15_released_once_per_placement false
           [first_mail; nothing_placed; first_mail] last_mail session0
           eq_refl eq_refl Hsound).
Defined.

Lemma X16_null_entries_skipped_witness :
  spool_sound (self spooled)
  /\ exists tr,
       (destroy false (populated (self spooled)) (env spooled)).1 = Ret tt
       /\ calls (destroy false (populated (self spooled)) (env spooled)).2
          = calls (env spooled) ++ tr
       /\ ~ In (EvFree nullptr) tr
       /\ frees tr = owned (populated (self spooled)).
Proof.
  assert (Hsound : spool_sound (self spooled))
    by (intros _; vm_compute; discriminate).
  split; [exact Hsound|].
  exact (proj2 (X16_null_entries_skipped false
                  (State (populated (self spooled)) (env spooled)))
           Hsound).
Defined.

(** C7, at a failing input.  The callbacks place the first mail's entries
    in the new [session0]; [createContentFile] is then called and [fopen]
    returns null, which leaves the flag set and the handle null; the
    object is then destroyed.  The destructor's [cleanup] calls
    [fclose(nullptr)] and the run ends there: none of the four buffers is
    ever handed to [free].  The same happens to [spooled] after a call
    with a directory that does not exist. *)
Lemma C7_entries_never_released :
  let filled := after (place first_mail) session0 in
  let failed := createContentFile false "/var/spool/sigh" digits
                  (Fopen_returns nullptr) in
  let s := after failed filled in
  let filled' := after (place first_mail) spooled in
  let failed' := createContentFile false "/nonexistent" digits (Fopen_returns 8) in
  let s' := after failed' filled' in
  (outcome failed filled = Ret false
   /\ owned (self s) = [201; 101; 102; 103]
   /\ (destroy false (self s) (env s)).1 = Undefined "fclose(nullptr)"
   /\ frees (calls (destroy false (self s) (env s)).2) = [])
  /\ (outcome failed' filled' = Ret false
      /\ owned (self s') = [201; 101; 102; 103]
      /\ (destroy false (self s') (env s')).1 = Undefined "fclose(nullptr)"
      /\ frees (calls (destroy false (self s') (env s')).2) = []).
Proof. vm_compute. repeat split. Qed.

(** C10, at a failing input.  [spooled], with entries of which one
    annotation and one header value are null, has been through a call of
    [createContentFile] with a directory that does not exist (flag set,
    handle null).  [reset] on it returns, having freed the five pointers
    that are not null and none that is; the destructor does not complete:
    its last call is [fclose(nullptr)], made before either release loop,
    and it frees nothing. *)
Lemma C10_destructor_ends_before_loops :
  let s := after (createContentFile false "/nonexistent" digits (Fopen_returns 8))
             (State (populated (self spooled)) (env spooled)) in
  sessionData (self s) !! "rcpt" = Some nullptr
  /\ markedHeaders (self s) = [(101, 102); (103, nullptr)]
  /\ (fcontentStatus (self s) = true /\ fcontent (self s) = nullptr)
  /\ (outcome reset s = Ret tt
      /\ frees (calls (env (after reset s))) = [201; 202; 101; 102; 103])
  /\ (destroy false (self s) (env s)).1 = Undefined "fclose(nullptr)"
  /\ calls (destroy false (self s) (env s)).2
     = calls (env s) ++ [EvFclose nullptr].
Proof. vm_compute. repeat split. Qed.

(** What that life frees, call by call: the first mail's buffers at the
    first [reset], nothing at the second, the last mail's buffers in the
    destructor. *)
Lemma sample_life_frees :
  frees (calls (env (after (lifetime false [first_mail; nothing_placed] last_mail)
                       session0)))
  = [201; 101; 102; 103; 202; 104; 105].
Proof. vm_compute. reflexivity. Qed.

(** ** The identifier, with constructors running at once *)

(** A constructor alone gets the incremented counter, which is what the
    sequential [id_initializer] computes. *)
Lemma alone_gets_next (u : N) :
  IdThreads.run [0; 0; 0; 0]%nat (IdThreads.boot u 1)
  = Some (IdThreads.Machine (IdThreads.Shared (increment u) false)
            [IdThreads.Thread [] (Some (increment u))]).
Proof. reflexivity. Qed.

Lemma id_initializer_next (w : world) :
  id_initializer w = (Ret (increment (uniqueId w)), with_uniqueId (increment (uniqueId w)) w).
Proof. destruct w. reflexivity. Qed.

(** Constructors that run one after another get 1, 2, 3. *)
Lemma one_after_another_distinct :
  option_map IdThreads.identities
    (IdThreads.run (IdThreads.one_after_another 0 3) (IdThreads.boot 0 3))
  = Some [Some 1; Some 2; Some 3].
Proof. vm_compute. reflexivity. Qed.

(** C5, at a failing input: two constructors start with the counter at
    zero.  The first locks, increments and unlocks; before it reads the
    counter back, the second locks, increments and unlocks; then each
    returns [uniqueId], which is 2 for both.  The read is made after the
    mutex has been released. *)
Lemma C5_two_constructors_one_identity :
  option_map IdThreads.identities
    (IdThreads.run [0; 0; 0; 1; 1; 1; 0; 1]%nat (IdThreads.boot 0 2))
  = Some [Some 2; Some 2].
Proof. vm_compute. reflexivity. Qed.

(** ** The descriptor, on the samples *)

(** C8.  The descriptor of a constructed object is [host:port] for an
    IPv4 peer, [[host]:port] for an IPv6 peer, and ["unknown"] for a peer
    of another family or when the numeric resolution fails; the
    constructor returns an object in every case.  With the numeric
    resolution of the C library: 203.0.113.5 port 25 gives
    ["203.0.113.5:25"], 2001:db8::1 port 587 gives ["[2001:db8::1]:587"],
    a Unix-domain peer gives ["unknown"]. *)
Theorem C8_descriptor_format :
  (forall getnameinfo gai_strerror hostname_ sa w,
     exists c w',
       Client_ctor getnameinfo gai_strerror hostname_ (Some sa) w = (Ret c, w')
       /\ ipAndPort c = descriptor getnameinfo sa)
  /\ descriptor Numeric.getnameinfo peer_v4 = "203.0.113.5:25"
  /\ descriptor Numeric.getnameinfo peer_v6 = "[2001:db8::1]:587"
  /\ descriptor Numeric.getnameinfo peer_unix = "unknown"
  /\ (forall failing sa,
        (forall salen hostlen servlen flags,
           (failing sa salen hostlen servlen flags).1.1 <> 0%Z) ->
        descriptor failing sa = "unknown").
Proof.
  split; [intros; apply ctor_descriptor|].
  split; [vm_compute; reflexivity|].
  split; [vm_compute; reflexivity|].
  split; [vm_compute; reflexivity|].
  intros failing sa Hfail. unfold descriptor, resolved.
  repeat case_decide; try reflexivity;
    match goal with
    | |- context [failing ?a ?b ?c ?d ?e] =>
        specialize (Hfail b c d e); destruct (failing a b c d e) as [[code host] port]
    end;
    cbn in Hfail; destruct (Z.eqb_spec code 0); congruence.
Qed.


(** ** The further properties, on the samples *)

Lemma X2_successful_open_witness :
  (status_of "/var/spool/sigh" (env session0) = Some Directory
   /\ free_of_percent "/var/spool/sigh" = true
   /\ 7 <> nullptr
   /\ spool_sound (self session0))
  /\ outcome (createContentFile false "/var/spool/sigh" digits (Fopen_returns 7))
       session0 = Ret true.
Proof.
  assert (Hdir : status_of "/var/spool/sigh" (env session0) = Some Directory)
    by (vm_compute; reflexivity).
  assert (Hplain : free_of_percent "/var/spool/sigh" = true)
    by (vm_compute; reflexivity).
  assert (Hf : 7 <> nullptr) by (unfold nullptr; lia).
  assert (Hsound : spool_sound (self session0))
    by (intros Hflag; discriminate Hflag).
  split; [repeat split; assumption|].
  exact (proj1 (X2_successful_open false "/var/spool/sigh" digits 7 session0
                  Hdir Hplain Hf Hsound)).
Defined.

Lemma X1_result_tells_handle_witness :
  createContentFile false "/var/spool/sigh" digits (Fopen_returns 7) session0
  = (Ret true, spooled)
  /\ true = nonnull (fcontent (self spooled)).
Proof.
  assert (Hcall : createContentFile false "/var/spool/sigh" digits (Fopen_returns 7)
                    session0 = (Ret true, spooled))
    by (vm_compute; reflexivity).
  split; [exact Hcall|].
  exact (X1_result_tells_handle false "/var/spool/sigh" digits (Fopen_returns 7)
           session0 spooled true Hcall).
Defined.

Lemma X3_reopen_replaces_spool_witness :
  (fcontent (self spooled) <> nullptr
   /\ status_of (temp (self spooled)) (env spooled) = Some Regular
   /\ (temp (self spooled) ∉ unremovable (env spooled))
   /\ status_of "/var/spool/sigh" (env spooled) = Some Directory
   /\ 8 <> nullptr
   /\ unique_path ("/var/spool/sigh" +:+ "/%%%%-%%%%-%%%%-%%%%.eml") digits'
      <> temp (self spooled))
  /\ outcome (createContentFile false "/var/spool/sigh" digits' (Fopen_returns 8))
       spooled = Ret true.
Proof.
  assert (H1 : fcontent (self spooled) <> nullptr) by (vm_compute; lia).
  assert (H2 : status_of (temp (self spooled)) (env spooled) = Some Regular)
    by (vm_compute; reflexivity).
  assert (H3 : temp (self spooled) ∉ unremovable (env spooled))
    by (cbn; set_solver).
  assert (H4 : status_of "/var/spool/sigh" (env spooled) = Some Directory)
    by (vm_compute; reflexivity).
  assert (H5 : 8 <> nullptr) by (unfold nullptr; lia).
  assert (H6 : unique_path ("/var/spool/sigh" +:+ "/%%%%-%%%%-%%%%-%%%%.eml") digits'
               <> temp (self spooled))
    by (vm_compute; discriminate).
  split; [repeat split; assumption|].
  exact (proj1 (X3_reopen_replaces_spool false "/var/spool/sigh" digits' 8 spooled
                  H1 H2 H3 H4 H5 H6)).
Defined.

Lemma X4_destroy_releases_spool_witness :
  (fcontent (self spooled) <> nullptr
   /\ status_of (temp (self spooled)) (env spooled) = Some Regular
   /\ (temp (self spooled) ∉ unremovable (env spooled)))
  /\ status_of (temp (self spooled))
       (destroy false (self spooled) (env spooled)).2 = None.
Proof.
  assert (H1 : fcontent (self spooled) <> nullptr) by (vm_compute; lia).
  assert (H2 : status_of (temp (self spooled)) (env spooled) = Some Regular)
    by (vm_compute; reflexivity).
  assert (H3 : temp (self spooled) ∉ unremovable (env spooled))
    by (cbn; set_solver).
  split; [repeat split; assumption|].
  exact (proj2 (proj2 (X4_destroy_releases_spool false (self spooled) (env spooled)
                         H1 H2 H3))).
Defined.

Lemma X5_removal_failure_absorbed_witness :
  (false = false
   /\ spool_sound (self stuck)
   /\ status_of (temp (self stuck)) (env stuck) = Some Regular
   /\ (temp (self stuck) ∈ unremovable (env stuck)))
  /\ exists tr what,
       outcome (cleanup false) stuck = Ret tt
       /\ calls (env (after (cleanup false) stuck)) = calls (env stuck) ++ tr
       /\ reports tr = ["Error: " +:+ what]
       /\ In (EvRemove (temp (self stuck))) tr
       /\ files (env (after (cleanup false) stuck)) = files (env stuck)
       /\ fcontent (self (after (cleanup false) stuck)) = nullptr.
Proof.
  assert (H1 : spool_sound (self stuck))
    by (intros _; vm_compute; discriminate).
  assert (H2 : status_of (temp (self stuck)) (env stuck) = Some Regular)
    by (vm_compute; reflexivity).
  assert (H3 : temp (self stuck) ∈ unremovable (env stuck))
    by (cbn; set_solver).
  split; [repeat split; assumption|].
  exact (X5_removal_failure_absorbed false stuck eq_refl H1 H2 H3).
Defined.

Lemma X6_retention_keeps_files_witness :
  (true = true /\ spool_sound (self spooled))
  /\ files (env (after (cleanup true) spooled)) = files (env spooled)
  /\ calls (env (after (cleanup true) spooled)) = calls (env spooled) ++ [EvFclose 7].
Proof.
  assert (Hsound : spool_sound (self spooled))
    by (intros _; vm_compute; discriminate).
  split; [split; [reflexivity|exact Hsound]|].
  exact (proj2 (X6_retention_keeps_files true spooled eq_refl Hsound)).
Defined.

(** [spooled] after [reset]: the flag is clear, the handle is still the
    open one, the content file is on disk.  The first [cleanup] closes
    the handle and removes the file; the second makes no call. *)
Lemma X10_cleanup_twice_flag_clear_witness :
  (fcontentStatus (self (after reset spooled)) = false
   /\ (temp (self (after reset spooled)) ∉ unremovable (env (after reset spooled)))
   /\ status_of (temp (self (after reset spooled))) (env (after reset spooled))
      <> Some Unreadable)
  /\ (cleanup false ;; cleanup false) (after reset spooled)
     = cleanup false (after reset spooled)
  /\ calls (env (after (cleanup false) (after reset spooled)))
     = calls (env spooled) ++ [EvFclose 7; EvRemove spool0].
Proof.
  assert (H1 : fcontentStatus (self (after reset spooled)) = false) by reflexivity.
  assert (H2 : temp (self (after reset spooled))
               ∉ unremovable (env (after reset spooled)))
    by (cbn; set_solver).
  assert (H3 : status_of (temp (self (after reset spooled)))
                 (env (after reset spooled)) <> Some Unreadable)
    by (vm_compute; discriminate).
  split; [repeat split; assumption|].
  split.
  - exact (X10_cleanup_twice_flag_clear false (after reset spooled) H1 H2 H3).
  - vm_compute. reflexivity.
Defined.

Lemma X11_successive_constructions_witness :
  (Client_ctor Numeric.getnameinfo Numeric.gai_strerror "mx.example.org"
     (Some peer_v4) fresh_process = (Ret (self session0), env session0)
   /\ Client_ctor Numeric.getnameinfo Numeric.gai_strerror "mail.example.net"
        (Some peer_v6) (env session0) = (Ret (self session1), env session1))
  /\ id (self session0) <> id (self session1).
Proof.
  assert (H1 : Client_ctor Numeric.getnameinfo Numeric.gai_strerror "mx.example.org"
                 (Some peer_v4) fresh_process = (Ret (self session0), env session0))
    by (vm_compute; reflexivity).
  assert (H2 : Client_ctor Numeric.getnameinfo Numeric.gai_strerror
                 "mail.example.net" (Some peer_v6) (env session0)
               = (Ret (self session1), env session1))
    by (vm_compute; reflexivity).
  split; [split; assumption|].
  exact (proj2 (proj2 (proj2 (proj2
           (X11_successive_constructions Numeric.getnameinfo Numeric.gai_strerror
              "mx.example.org" "mail.example.net" (Some peer_v4) (Some peer_v6)
              fresh_process (env session0) (env session1)
              (self session0) (self session1) H1 H2))))).
Defined.

Lemma X13_failed_open_leaves_new_object_witness :
  (status_of "/nonexistent" (env session0) = None
   /\ fcontent (self session0) = nullptr
   /\ fcontentStatus (self session0) = false
   /\ temp (self session0) = "")
  /\ createContentFile false "/nonexistent" digits (Fopen_returns 8) session0 =
       (Ret false,
        State (self session0)
          (with_calls
             (calls (env session0)
              ++ [EvCerr "Error: Can not access temporary directory"])
             (env session0))).
Proof.
  assert (H1 : status_of "/nonexistent" (env session0) = None)
    by (vm_compute; reflexivity).
  split; [repeat split; assumption|].
  exact (X13_failed_open_leaves_new_object false "/nonexistent" digits
           (Fopen_returns 8) session0 H1 eq_refl eq_refl eq_refl).
Defined.

(** ** Constructors running at once: what every schedule keeps *)

Lemma count_threads_insert (p : IdThreads.thread -> bool)
    (l : list IdThreads.thread) (i : nat) (t t' : IdThreads.thread) :
  l !! i = Some t ->
  (count_threads p (<[i := t']> l) + (if p t then 1 else 0)
   = count_threads p l + (if p t' then 1 else 0))%nat.
Proof.
  revert i. induction l as [|t0 l IH]; intros [|i] Hi; try discriminate Hi.
  - injection Hi as ->. cbn. destruct (p t), (p t'); lia.
  - specialize (IH i Hi).
    change (<[S i := t']> (t0 :: l)) with (t0 :: <[i := t']> l).
    cbn [count_threads]. destruct (p t), (p t'), (p t0); lia.
Qed.

Lemma count_threads_member (p : IdThreads.thread -> bool)
    (l : list IdThreads.thread) (i : nat) (t : IdThreads.thread) :
  l !! i = Some t -> p t = true -> (1 <= count_threads p l)%nat.
Proof.
  revert i. induction l as [|t0 l IH]; intros [|i] Hi Hp; try discriminate Hi.
  - injection Hi as ->. cbn. rewrite Hp. lia.
  - specialize (IH i Hi Hp). cbn [count_threads]. destruct (p t0); lia.
Qed.

Lemma count_threads_replicate (p : IdThreads.thread -> bool) (n : nat)
    (t : IdThreads.thread) :
  count_threads p (replicate n t) = (if p t then n else 0)%nat.
Proof.
  induction n as [|n IH]; cbn; [destruct (p t); reflexivity|].
  rewrite IH. destruct (p t); reflexivity.
Qed.

Lemma count_threads_all (p : IdThreads.thread -> bool) (l : list IdThreads.thread) :
  Forall (fun t => p t = true) l -> count_threads p l = length l.
Proof.
  induction 1 as [|t l Ht _ IH]; cbn; [reflexivity|]. rewrite Ht, IH. reflexivity.
Qed.

Lemma identity_in_range_more (u : N) (upto upto' : nat) (t : IdThreads.thread) :
  (upto <= upto')%nat -> identity_in_range u upto t -> identity_in_range u upto' t.
Proof.
  unfold identity_in_range. intros Hle.
  destruct (IdThreads.returned t); [|auto].
  intros (Hdone & k & Hk & ->). split; [exact Hdone|]. exists k. split; [lia|reflexivity].
Qed.

Lemma boot_consistent (u : N) (n : nat) : consistent u (IdThreads.boot u n).
Proof.
  unfold IdThreads.boot. split; cbn.
  - apply Forall_replicate. left. reflexivity.
  - rewrite count_threads_replicate. reflexivity.
  - rewrite count_threads_replicate. reflexivity.
  - apply Forall_replicate. cbn. discriminate.
Qed.

(** One instruction of one thread keeps the invariant. *)
Lemma step_consistent (u : N) (i : nat) (m m' : IdThreads.machine) :
  consistent u m -> IdThreads.step i m = Some m' -> consistent u m'.
Proof.
  intros [Htrack Hlock Hcnt Hids] Hstep. unfold IdThreads.step in Hstep.
  destruct (IdThreads.threads m !! i) as [t|] eqn:Hi; [|discriminate Hstep].
  pose proof (Forall_lookup_1 _ _ _ _ Htrack Hi) as Ht.
  pose proof (Forall_lookup_1 _ _ _ _ Hids Hi) as Hid.
  pose proof (fun t' => count_threads_insert holds_lock _ _ _ t' Hi) as Hholds.
  pose proof (fun t' => count_threads_insert has_incremented _ _ _ t' Hi) as Hincr.
  pose proof (count_threads_member has_incremented _ _ _ Hi) as Hmember.
  destruct m as [[c lk] ths]. destruct t as [td rt].
  unfold identity_in_range in Hid. cbn in *.
  assert (Hrt : td <> [] -> rt = None).
  { destruct rt; [|reflexivity]. intros Hne. destruct Hid as [Hdone _]. contradiction. }
  unfold on_track in Ht. cbn in Ht.
  destruct Ht as [<-|[<-|[<-|[<-|[<-|[]]]]]]; unfold IdThreads.exec in Hstep;
    cbn in Hstep; try discriminate Hstep.
  - (* lock *)
    destruct lk; [discriminate Hstep|]. injection Hstep as <-.
    rewrite (Hrt ltac:(discriminate)) in *.
    specialize (Hholds (IdThreads.Thread
                          [IdThreads.Incr; IdThreads.Unlock; IdThreads.ReturnId] None)).
    specialize (Hincr (IdThreads.Thread
                         [IdThreads.Incr; IdThreads.Unlock; IdThreads.ReturnId] None)).
    cbn in Hholds, Hincr. split; cbn.
    + apply Forall_insert; [exact Htrack|]. right. left. reflexivity.
    + lia.
    + replace (count_threads has_incremented (<[i:=_]> ths))
        with (count_threads has_incremented ths) by lia. exact Hcnt.
    + replace (count_threads has_incremented (<[i:=_]> ths))
        with (count_threads has_incremented ths) by lia.
      apply Forall_insert; [exact Hids|]. cbn. discriminate.
  - (* increment *)
    injection Hstep as <-. rewrite (Hrt ltac:(discriminate)) in *.
    specialize (Hholds (IdThreads.Thread [IdThreads.Unlock; IdThreads.ReturnId] None)).
    specialize (Hincr (IdThreads.Thread [IdThreads.Unlock; IdThreads.ReturnId] None)).
    cbn in Hholds, Hincr. split; cbn.
    + apply Forall_insert; [exact Htrack|]. right. right. left. reflexivity.
    + lia.
    + replace (count_threads has_incremented (<[i:=_]> ths))
        with (S (count_threads has_incremented ths)) by lia.
      rewrite Hcnt. reflexivity.
    + apply Forall_insert; [|cbn; discriminate].
      eapply Forall_impl; [exact Hids|].
      intros t0. apply identity_in_range_more. lia.
  - (* unlock *)
    injection Hstep as <-. rewrite (Hrt ltac:(discriminate)) in *.
    specialize (Hholds (IdThreads.Thread [IdThreads.ReturnId] None)).
    specialize (Hincr (IdThreads.Thread [IdThreads.ReturnId] None)).
    cbn in Hholds, Hincr. split; cbn.
    + apply Forall_insert; [exact Htrack|]. do 3 right. left. reflexivity.
    + destruct lk; lia.
    + replace (count_threads has_incremented (<[i:=_]> ths))
        with (count_threads has_incremented ths) by lia. exact Hcnt.
    + replace (count_threads has_incremented (<[i:=_]> ths))
        with (count_threads has_incremented ths) by lia.
      apply Forall_insert; [exact Hids|]. cbn. discriminate.
  - (* return *)
    injection Hstep as <-. rewrite (Hrt ltac:(discriminate)) in *.
    specialize (Hholds (IdThreads.Thread [] (Some c))).
    specialize (Hincr (IdThreads.Thread [] (Some c))).
    specialize (Hmember eq_refl).
    cbn in Hholds, Hincr. split; cbn.
    + apply Forall_insert; [exact Htrack|]. do 4 right. left. reflexivity.
    + lia.
    + replace (count_threads has_incremented (<[i:=_]> ths))
        with (count_threads has_incremented ths) by lia. exact Hcnt.
    + replace (count_threads has_incremented (<[i:=_]> ths))
        with (count_threads has_incremented ths) by lia.
      apply Forall_insert; [exact Hids|]. cbn.
      split; [reflexivity|]. exists (count_threads has_incremented ths).
      split; [lia|exact Hcnt].
Qed.

Lemma step_length (i : nat) (m m' : IdThreads.machine) :
  IdThreads.step i m = Some m' ->
  length (IdThreads.threads m') = length (IdThreads.threads m).
Proof.
  unfold IdThreads.step. destruct (IdThreads.threads m !! i); [|discriminate].
  destruct (IdThreads.exec _ _) as [[sh t']|]; [|discriminate].
  intros [= <-]. cbn. apply length_insert.
Qed.

Lemma run_consistent (u : N) (schedule : list nat) (m m' : IdThreads.machine) :
  consistent u m -> IdThreads.run schedule m = Some m' ->
  consistent u m' /\ length (IdThreads.threads m') = length (IdThreads.threads m).
Proof.
  revert m. induction schedule as [|i rest IH]; intros m Hm Hrun; cbn in Hrun.
  - injection Hrun as <-. split; [exact Hm|reflexivity].
  - destruct (IdThreads.step i m) as [m1|] eqn:Hstep; [|discriminate Hrun].
    destruct (IH m1 (step_consistent u i m m1 Hm Hstep) Hrun) as [Hc Hl].
    split; [exact Hc|]. rewrite Hl. exact (step_length i m m1 Hstep).
Qed.

(** X12.  Whatever the schedule, the mutex does its work: at any point
    reached by [n] constructors that started together, at most one of
    them is between its [lock] and its [unlock] (so only one at a time
    executes [++uniqueId]), and exactly one is when the mutex is
    taken. *)
Theorem X12_one_lock_holder (u : N) (n : nat) (schedule : list nat)
    (m : IdThreads.machine) :
  IdThreads.run schedule (IdThreads.boot u n) = Some m ->
  (count_threads holds_lock (IdThreads.threads m) <= 1)%nat
  /\ count_threads holds_lock (IdThreads.threads m)
     = (if IdThreads.locked (IdThreads.mem m) then 1 else 0)%nat.
Proof.
  intros Hrun.
  destruct (run_consistent u schedule _ m (boot_consistent u n) Hrun) as [[_ Hlock _ _] _].
  rewrite Hlock. split; [destruct (IdThreads.locked _); lia|reflexivity].
Qed.

Lemma X12_one_lock_holder_witness :
  IdThreads.run [0; 0]%nat (IdThreads.boot 0 2)
  = Some (IdThreads.Machine (IdThreads.Shared 1 true)
            [IdThreads.Thread [IdThreads.Unlock; IdThreads.ReturnId] None;
             IdThreads.start])
  /\ (count_threads holds_lock
        [IdThreads.Thread [IdThreads.Unlock; IdThreads.ReturnId] None;
         IdThreads.start] <= 1)%nat.
Proof.
  assert (Hrun : IdThreads.run [0; 0]%nat (IdThreads.boot 0 2)
                 = Some (IdThreads.Machine (IdThreads.Shared 1 true)
                           [IdThreads.Thread [IdThreads.Unlock; IdThreads.ReturnId] None;
                            IdThreads.start]))
    by (vm_compute; reflexivity).
  split.
  - vm_compute. reflexivity.
  - exact (proj1 (X12_one_lock_holder 0 2 [0; 0]%nat _ Hrun)).
Defined.

(** X14.  Whatever the schedule, once the [n] constructors that started
    together with the counter at [u] have all returned, the counter has
    been incremented exactly [n] times (no increment is lost), and every
    identifier handed out is the counter after [k] increments for some
    [k] between 1 and [n]: never the initial value, never beyond the last
    one. *)
Theorem X14_identifiers_after_all_returned (u : N) (n : nat)
    (schedule : list nat) (m : IdThreads.machine) :
  IdThreads.run schedule (IdThreads.boot u n) = Some m ->
  Forall (fun t => IdThreads.todo t = []) (IdThreads.threads m) ->
  length (IdThreads.threads m) = n
  /\ IdThreads.counter (IdThreads.mem m) = incremented n u
  /\ Forall (fun t => exists k, (1 <= k <= n)%nat
                                /\ IdThreads.returned t = Some (incremented k u))
       (IdThreads.threads m).
Proof.
  intros Hrun Hdone.
  destruct (run_consistent u schedule _ m (boot_consistent u n) Hrun)
    as [[_ _ Hcnt Hids] Hlen].
  cbn in Hlen. rewrite length_replicate in Hlen.
  assert (Hall : count_threads has_incremented (IdThreads.threads m) = n).
  { rewrite <- Hlen. apply count_threads_all.
    eapply Forall_impl; [exact Hdone|].
    intros t Ht. unfold has_incremented. rewrite Ht. reflexivity. }
  rewrite Hall in Hcnt, Hids.
  split; [exact Hlen|]. split; [exact Hcnt|].
  apply Forall_forall. intros t Hin.
  pose proof (proj1 (Forall_forall _ _) Hids t Hin) as Hid.
  pose proof (proj1 (Forall_forall _ _) Hdone t Hin) as Ht.
  unfold identity_in_range in Hid.
  destruct (IdThreads.returned t) as [v|]; [|contradiction].
  destruct Hid as (_ & k & Hk & ->). exists k. split; [exact Hk|reflexivity].
Qed.

Lemma X14_identifiers_after_all_returned_witness :
  (IdThreads.run [0; 0; 0; 1; 1; 1; 0; 1]%nat (IdThreads.boot 0 2)
   = Some (IdThreads.Machine (IdThreads.Shared 2 false)
             [IdThreads.Thread [] (Some 2); IdThreads.Thread [] (Some 2)])
   /\ Forall (fun t => IdThreads.todo t = [])
        [IdThreads.Thread [] (Some 2); IdThreads.Thread [] (Some 2)])
  /\ IdThreads.counter (IdThreads.Shared 2 false) = incremented 2 0.
Proof.
  assert (Hrun : IdThreads.run [0; 0; 0; 1; 1; 1; 0; 1]%nat (IdThreads.boot 0 2)
                 = Some (IdThreads.Machine (IdThreads.Shared 2 false)
                           [IdThreads.Thread [] (Some 2);
                            IdThreads.Thread [] (Some 2)]))
    by (vm_compute; reflexivity).
  assert (Hdone : Forall (fun t => IdThreads.todo t = [])
                    [IdThreads.Thread [] (Some 2); IdThreads.Thread [] (Some 2)])
    by (repeat constructor).
  split; [split; assumption|].
  exact (proj1 (proj2 (X14_identifiers_after_all_returned 0 2
                         [0; 0; 0; 1; 1; 1; 0; 1]%nat _ Hrun Hdone))).
Defined.
